(** * Relay server: a shallow embedding of [src/index.js] and of the cached
    status query of [src/controllers/roomba.js].

    The JavaScript process is single threaded: every WebSocket event
    (connection, message, close) runs to completion before the next one.
    The hub is therefore modelled as a record of the module-level variables
    of [index.js] together with the connection objects, and every handler as
    a computation in a small state-and-exception monad: a [throw] aborts the
    rest of the handler but keeps the mutations already done, exactly as a
    JavaScript exception does. *)

From Stdlib Require Import List String Ascii ZArith Bool Arith Lia.
Import ListNotations.
Open Scope string_scope.
Set Warnings "-register-all".

(** ** JSON values *)

Module Json.

(** Values produced by [JSON.parse] (numbers as integers). *)
Inductive json : Type :=
| JNull
| JBool (b : bool)
| JNum (n : Z)
| JStr (s : string)
| JArr (l : list json)
| JObj (l : list (string * json)).

Fixpoint assoc (k : string) (l : list (string * json)) : option json :=
  match l with
  | [] => None
  | (k', v) :: l' => if String.eqb k k' then Some v else assoc k l'
  end.

(** [v.k] on a value that is not [null]: an object looks the key up, any
    other value has no such own property ([undefined] is [None]). *)
Definition jget (v : json) (k : string) : option json :=
  match v with
  | JObj l => assoc k l
  | _ => None
  end.

(** [v?.k] on a possibly [undefined] value. *)
Definition jget_opt (v : option json) (k : string) : option json :=
  match v with
  | Some v' => jget v' k
  | None => None
  end.

(** JavaScript truthiness of a possibly [undefined] value. *)
Definition truthy (v : option json) : bool :=
  match v with
  | None | Some JNull => false
  | Some (JBool b) => b
  | Some (JNum n) => negb (Z.eqb n 0)
  | Some (JStr s) => negb (String.eqb s "")
  | Some (JArr _) | Some (JObj _) => true
  end.

(** [a || d] *)
Definition or_default (v : option json) (d : json) : json :=
  match v with
  | Some v' => if truthy v then v' else d
  | None => d
  end.

(** [x === 's'] for a string literal ['s']. *)
Definition is_str (v : option json) (s : string) : bool :=
  match v with
  | Some (JStr s') => String.eqb s' s
  | _ => false
  end.

Fixpoint digits (fuel n : nat) (acc : string) : string :=
  match fuel with
  | O => acc
  | S f =>
      let acc' := String (ascii_of_nat (48 + Nat.modulo n 10)) acc in
      if Nat.ltb n 10 then acc' else digits f (Nat.div n 10) acc'
  end.

Definition string_of_nat (n : nat) : string := digits (S n) n "".

Fixpoint indexed {A : Type} (i : nat) (l : list A) : list (string * A) :=
  match l with
  | [] => []
  | x :: l' => (string_of_nat i, x) :: indexed (S i) l'
  end.

Fixpoint chars (s : string) : list json :=
  match s with
  | EmptyString => []
  | String a s' => JStr (String a EmptyString) :: chars s'
  end.

(** Own enumerable properties copied by an object spread [{...v}]. *)
Definition own_fields (v : option json) : list (string * json) :=
  match v with
  | Some (JObj l) => l
  | Some (JArr l) => indexed 0 l
  | Some (JStr s) => indexed 0 (chars s)
  | _ => []
  end.

(** [{...l, k: v}]: an existing key keeps its place, a new one is appended. *)
Fixpoint set_field (k : string) (v : json) (l : list (string * json))
  : list (string * json) :=
  match l with
  | [] => [(k, v)]
  | (k', v') :: l' =>
      if String.eqb k k' then (k, v) :: l' else (k', v') :: set_field k v l'
  end.

(** [{ ...data, lastUpdate: ts }] *)
Definition spread_stamp (data : option json) (ts : string) : json :=
  JObj (set_field "lastUpdate" (JStr ts) (own_fields data)).

(** An object literal: [JSON.stringify] drops the [undefined] fields. *)
Fixpoint obj_fields (l : list (string * option json)) : list (string * json) :=
  match l with
  | [] => []
  | (k, Some v) :: l' => (k, v) :: obj_fields l'
  | (k, None) :: l' => obj_fields l'
  end.

Definition obj (l : list (string * option json)) : json := JObj (obj_fields l).

End Json.
Import Json.

(** ** The hub state *)

Module Hub.

(** The handler a connection was given by the upgrade path. *)
Inductive endpoint : Type := EShutters | EIrrigation | EApp | ENone.

(** Request path dispatch of [wss.on('connection')]. *)
Definition endpoint_of_url (url : string) : endpoint :=
  if String.eqb url "/esp32" then EShutters
  else if String.eqb url "/esp32-irrigation" then EIrrigation
  else if String.eqb url "/app" then EApp
  else ENone.

(** A WebSocket: its identity, its handler, its [readyState]
    (0 CONNECTING, 1 OPEN, 2 CLOSING, 3 CLOSED) and the [authenticated]
    variable closed over by its device message handler. *)
Record conn : Type := mkConn {
  cid : nat;
  ckind : endpoint;
  cready : nat;
  cauth : bool
}.

(** The secrets read from the environment at start-up. *)
Record config : Type := mkConfig {
  ESP32_SECRET : string;
  ESP32_IRRIGATION_SECRET : string;
  APP_SECRET : string
}.

(** Defaults of [index.js] when the environment sets nothing. *)
Definition default_config : config :=
  mkConfig "your-esp32-secret-key" "my-super-secret-irrigation-key-54321"
    "your-app-secret-key".

(** Module-level state of [index.js], the accepted connections in
    acceptance order (the iteration order of [wss.clients]), the messages
    handed to the transport, the [ws.close()] calls, the connections whose
    [send] throws, the rows of the irrigation history table of the
    database service, and the clock. *)
Record hub : Type := mkHub {
  cfg : config;
  esp32Socket : option nat;
  esp32IrrigationSocket : option nat;
  shuttersState : json;
  irrigationState : json;
  robotsState : json;
  conns : list conn;
  sent : list (nat * json);
  closes : list nat;
  send_throws : list nat;
  irrigation_logs : list json;
  now : string
}.

Definition chan0 : json := JObj [("pos", JNum 0); ("dir", JNum 0)].

Definition robot0 : json :=
  JObj [("battery", JNum 0); ("phase", JStr "unknown");
        ("connected", JBool false); ("lastUpdate", JNull)].

Definition init_hub (c : config) (throws : list nat) (t : string) : hub :=
  {| cfg := c;
     esp32Socket := None;
     esp32IrrigationSocket := None;
     shuttersState := JObj [("s1", chan0); ("s2", chan0); ("s3", chan0);
                            ("s4", chan0); ("lastUpdate", JNull)];
     irrigationState := JObj [("active", JBool false); ("duration", JNum 0);
                              ("elapsed", JNum 0); ("completion", JNum 0);
                              ("lastUpdate", JNull)];
     robotsState := JObj [("roomba_j7", robot0); ("braava_jet", robot0)];
     conns := [];
     sent := [];
     closes := [];
     send_throws := throws;
     irrigation_logs := [];
     now := t |}.

(** *** The state-and-exception monad *)

Inductive outcome (A : Type) : Type :=
| Ok (a : A)
| Thrown.
Arguments Ok {A} a.
Arguments Thrown {A}.

Definition M (A : Type) : Type := hub -> outcome A * hub.

Definition ret {A : Type} (a : A) : M A := fun h => (Ok a, h).

Definition bind {A B : Type} (m : M A) (k : A -> M B) : M B :=
  fun h =>
    match m h with
    | (Ok a, h') => k a h'
    | (Thrown, h') => (Thrown, h')
    end.

Definition throw {A : Type} : M A := fun h => (Thrown, h).

Definition gets {A : Type} (f : hub -> A) : M A := fun h => (Ok (f h), h).

Definition modify (f : hub -> hub) : M unit := fun h => (Ok tt, f h).

(** [try { m } catch (e) { console.error(...) }] *)
Definition try_catch (m : M unit) : M unit :=
  fun h => (Ok tt, snd (m h)).

(** [try { m; return true } catch { return false }] *)
Definition attempt (m : M unit) : M bool :=
  fun h =>
    match m h with
    | (Ok _, h') => (Ok true, h')
    | (Thrown, h') => (Ok false, h')
    end.

Notation "x <- m1 ;; m2" := (bind m1 (fun x => m2))
  (at level 61, m1 at next level, right associativity).
Notation "m1 ;; m2" := (bind m1 (fun _ => m2))
  (at level 61, right associativity).

(** *** Field updates of the hub *)

Definition with_regs (s i : option nat) (h : hub) : hub :=
  {| cfg := cfg h; esp32Socket := s; esp32IrrigationSocket := i;
     shuttersState := shuttersState h; irrigationState := irrigationState h;
     robotsState := robotsState h; conns := conns h; sent := sent h;
     closes := closes h; send_throws := send_throws h;
     irrigation_logs := irrigation_logs h; now := now h |}.

Definition with_states (sh ir ro : json) (h : hub) : hub :=
  {| cfg := cfg h; esp32Socket := esp32Socket h;
     esp32IrrigationSocket := esp32IrrigationSocket h;
     shuttersState := sh; irrigationState := ir; robotsState := ro;
     conns := conns h; sent := sent h;
     closes := closes h; send_throws := send_throws h;
     irrigation_logs := irrigation_logs h; now := now h |}.

Definition with_io (cs : list conn) (s : list (nat * json)) (cl : list nat)
  (h : hub) : hub :=
  {| cfg := cfg h; esp32Socket := esp32Socket h;
     esp32IrrigationSocket := esp32IrrigationSocket h;
     shuttersState := shuttersState h; irrigationState := irrigationState h;
     robotsState := robotsState h; conns := cs; sent := s;
     closes := cl; send_throws := send_throws h;
     irrigation_logs := irrigation_logs h; now := now h |}.

Definition set_esp32Socket (o : option nat) : M unit :=
  modify (fun h => with_regs o (esp32IrrigationSocket h) h).
Definition set_esp32IrrigationSocket (o : option nat) : M unit :=
  modify (fun h => with_regs (esp32Socket h) o h).
Definition set_shuttersState (v : json) : M unit :=
  modify (fun h => with_states v (irrigationState h) (robotsState h) h).
Definition set_irrigationState (v : json) : M unit :=
  modify (fun h => with_states (shuttersState h) v (robotsState h) h).
Definition set_robotsState (v : json) : M unit :=
  modify (fun h => with_states (shuttersState h) (irrigationState h) v h).

Fixpoint find_conn (c : nat) (l : list conn) : option conn :=
  match l with
  | [] => None
  | k :: l' => if Nat.eqb (cid k) c then Some k else find_conn c l'
  end.

Definition update_conn (c : nat) (f : conn -> conn) (l : list conn) : list conn :=
  map (fun k => if Nat.eqb (cid k) c then f k else k) l.

Definition with_ready (n : nat) (k : conn) : conn :=
  mkConn (cid k) (ckind k) n (cauth k).
Definition with_auth (b : bool) (k : conn) : conn :=
  mkConn (cid k) (ckind k) (cready k) b.

Definition set_conn (c : nat) (f : conn -> conn) : M unit :=
  modify (fun h => with_io (update_conn c f (conns h)) (sent h) (closes h) h).

(** The [authenticated] variable of connection [c]'s message handler. *)
Definition get_auth (c : nat) : M bool :=
  gets (fun h => match find_conn c (conns h) with
                 | Some k => cauth k
                 | None => false
                 end).

Definition ready_of (h : hub) (c : nat) : nat :=
  match find_conn c (conns h) with
  | Some k => cready k
  | None => 3
  end.

Definition opt_is (o : option nat) (c : nat) : bool :=
  match o with
  | Some c' => Nat.eqb c' c
  | None => false
  end.

Definition throws_on (h : hub) (c : nat) : bool :=
  existsb (Nat.eqb c) (send_throws h).

(** [ws.send(JSON.stringify(m))]: it throws while CONNECTING, does nothing
    once CLOSING or CLOSED, and hands the message to the transport when
    OPEN, unless the environment makes that send throw. *)
Definition send (c : nat) (m : json) : M unit :=
  fun h =>
    match ready_of h c with
    | 0 => (Thrown, h)
    | 1 => if throws_on h c then (Thrown, h)
           else (Ok tt, with_io (conns h) (sent h ++ [(c, m)]) (closes h) h)
    | _ => (Ok tt, h)
    end.

(** [ws.close()]: an OPEN socket becomes CLOSING; its [close] event comes
    later, as an event of its own. *)
Definition close (c : nat) : M unit :=
  fun h =>
    let cs := if Nat.leb (ready_of h c) 1
              then update_conn c (with_ready 2) (conns h) else conns h in
    (Ok tt, with_io cs (sent h) (closes h ++ [c]) h).

(** Inbound frames: the text of a JSON value, or text [JSON.parse]
    rejects. *)
Inductive frame : Type :=
| Text (v : json)
| Garbage.

(** [JSON.parse(data.toString())] *)
Definition parse (d : frame) : M json :=
  match d with
  | Text v => ret v
  | Garbage => throw
  end.

(** [message.k]: a [TypeError] on [null], [undefined] when absent. *)
Definition prop (v : json) (k : string) : M (option json) :=
  match v with
  | JNull => throw
  | _ => ret (jget v k)
  end.

(** *** [broadcastToApps] *)

Fixpoint broadcast_over (l : list conn) (m : json) : M unit :=
  match l with
  | [] => ret tt
  | k :: l' =>
      reg <- gets esp32Socket ;;
      (if Nat.eqb (cready k) 1 && negb (opt_is reg (cid k))
       then send (cid k) m else ret tt) ;;
      broadcast_over l' m
  end.

Definition broadcastToApps (m : json) : M unit :=
  cs <- gets conns ;; broadcast_over cs m.

Definition msg_type (t : string) : json := JObj [("type", JStr t)].

(** *** [handleESP32Connection] *)

(** The first-message branch of a [/esp32] connection ([!authenticated]),
    ending in [return]. *)
Definition esp32_auth (c : nat) (message : json) : M unit :=
  t <- prop message "type" ;;
  ok <- (if is_str t "AUTH"
         then s <- prop message "secret" ;;
              secret <- gets (fun h => ESP32_SECRET (cfg h)) ;;
              ret (is_str s secret)
         else ret false) ;;
  if ok then
    set_conn c (with_auth true) ;;
    set_esp32Socket (Some c) ;;
    send c (msg_type "AUTH_OK") ;;
    send c (msg_type "REQUEST_STATE")
  else
    send c (msg_type "AUTH_FAILED") ;;
    close c.

(** The messages of an authenticated [/esp32] connection. *)
Definition esp32_dispatch (message : json) : M unit :=
  t1 <- prop message "type" ;;
  (if is_str t1 "STATE" then
     data <- prop message "data" ;;
     ts <- gets now ;;
     set_shuttersState (spread_stamp data ts) ;;
     st <- gets shuttersState ;;
     broadcastToApps (JObj [("type", JStr "STATE_UPDATE"); ("data", st)])
   else ret tt) ;;
  (* [ACK] is only logged *)
  _ <- prop message "type" ;;
  t3 <- prop message "type" ;;
  (if is_str t3 "ROBOT_STATE" then
     data <- prop message "data" ;;
     ts <- gets now ;;
     set_robotsState (spread_stamp data ts) ;;
     rs <- gets robotsState ;;
     broadcastToApps
       (JObj [("type", JStr "ROBOT_STATE_UPDATE"); ("data", rs)])
   else ret tt) ;;
  t4 <- prop message "type" ;;
  (if is_str t4 "ROBOT_RESPONSE" then broadcastToApps message
   else ret tt).

(** The [message] handler of a [/esp32] connection. *)
Definition esp32_on_message (c : nat) (d : frame) : M unit :=
  try_catch (
    message <- parse d ;;
    authenticated <- get_auth c ;;
    if negb authenticated then esp32_auth c message
    else esp32_dispatch message).

(** [robotsState[id].connected = false] for every entry that is an object
    ([typeof] object and truthy); on an array the property is not
    serialised, so the JSON value is unchanged. *)
Definition disconnect_entry (v : json) : json :=
  match v with
  | JObj l => JObj (set_field "connected" (JBool false) l)
  | _ => v
  end.

Definition mark_disconnected (rs : json) : json :=
  match rs with
  | JObj l => JObj (map (fun kv => (fst kv, disconnect_entry (snd kv))) l)
  | _ => rs
  end.

(** The [close] handler of a [/esp32] connection. *)
Definition esp32_on_close (c : nat) : M unit :=
  reg <- gets esp32Socket ;;
  if opt_is reg c then
    set_esp32Socket None ;;
    rs <- gets robotsState ;;
    set_robotsState (mark_disconnected rs) ;;
    rs' <- gets robotsState ;;
    broadcastToApps (JObj [("type", JStr "ROBOT_STATE_UPDATE"); ("data", rs')])
  else ret tt.

(** *** [handleESP32IrrigationConnection] *)

Definition irrigation_auth (c : nat) (message : json) : M unit :=
  t <- prop message "type" ;;
  ok <- (if is_str t "AUTH"
         then s <- prop message "secret" ;;
              secret <- gets (fun h => ESP32_IRRIGATION_SECRET (cfg h)) ;;
              ret (is_str s secret)
         else ret false) ;;
  if ok then
    set_conn c (with_auth true) ;;
    set_esp32IrrigationSocket (Some c) ;;
    send c (msg_type "AUTH_OK") ;;
    send c (msg_type "REQUEST_STATE")
  else
    send c (msg_type "AUTH_FAILED") ;;
    close c.

Definition irrigation_dispatch (message : json) : M unit :=
  t1 <- prop message "type" ;;
  (if is_str t1 "IRRIGATION_STATE" then
     data <- prop message "data" ;;
     ts <- gets now ;;
     set_irrigationState (spread_stamp data ts) ;;
     st <- gets irrigationState ;;
     broadcastToApps (JObj [("type", JStr "IRRIGATION_STATE"); ("data", st)])
   else ret tt) ;;
  t2 <- prop message "type" ;;
  (if is_str t2 "IRRIGATION_COMMAND_COMPLETE" then broadcastToApps message
   else ret tt).

Definition irrigation_on_message (c : nat) (d : frame) : M unit :=
  try_catch (
    message <- parse d ;;
    authenticated <- get_auth c ;;
    if negb authenticated then irrigation_auth c message
    else irrigation_dispatch message).

Definition irrigation_on_close (c : nat) : M unit :=
  reg <- gets esp32IrrigationSocket ;;
  if opt_is reg c then set_esp32IrrigationSocket None else ret tt.

(** *** [handleAppConnection] *)

Definition app_on_connect (c : nat) : M unit :=
  st <- gets shuttersState ;;
  send c (JObj [("type", JStr "STATE_UPDATE"); ("data", st)]).

(** [esp32Socket && esp32Socket.readyState === 1] *)
Definition esp32_live (h : hub) : option nat :=
  match esp32Socket h with
  | Some s => if Nat.eqb (ready_of h s) 1 then Some s else None
  | None => None
  end.

Definition shutters_live : M (option nat) := gets esp32_live.

(** [esp32IrrigationSocket && esp32IrrigationSocket.readyState === 1] *)
Definition esp32_irrigation_live (h : hub) : option nat :=
  match esp32IrrigationSocket h with
  | Some s => if Nat.eqb (ready_of h s) 1 then Some s else None
  | None => None
  end.

Definition irrigation_live : M (option nat) := gets esp32_irrigation_live.

(** [message.type === ty && message.token === APP_SECRET] *)
Definition is_command (message : json) (ty : string) : M bool :=
  t <- prop message "type" ;;
  if is_str t ty then
    tok <- prop message "token" ;;
    secret <- gets (fun h => APP_SECRET (cfg h)) ;;
    ret (is_str tok secret)
  else ret false.

Definition app_on_message (c : nat) (d : frame) : M unit :=
  try_catch (
    message <- parse d ;;
    b1 <- is_command message "COMMAND" ;;
    (if b1 then
       live <- shutters_live ;;
       match live with
       | Some s =>
           action <- prop message "action" ;;
           channel <- prop message "channel" ;;
           value <- prop message "value" ;;
           send s (obj [("type", Some (JStr "COMMAND")); ("action", action);
                        ("channel", channel); ("value", value)])
       | None => ret tt
       end
     else ret tt) ;;
    b2 <- is_command message "IRRIGATION_COMMAND" ;;
    (if b2 then
       live <- irrigation_live ;;
       match live with
       | Some s =>
           send s message ;;
           send c (JObj [("type", JStr "IRRIGATION_RESPONSE");
                         ("success", JBool true)])
       | None =>
           send c (JObj [("type", JStr "IRRIGATION_RESPONSE");
                         ("success", JBool false);
                         ("error", JStr "Irrigation ESP32 not connected")])
       end
     else ret tt) ;;
    b3 <- is_command message "ROBOT_COMMAND" ;;
    (if b3 then
       robotId <- prop message "robotId" ;;
       command <- prop message "command" ;;
       live <- shutters_live ;;
       match live with
       | Some s =>
           send s (obj [("type", Some (JStr "ROBOT_FORWARD_COMMAND"));
                        ("robotId", robotId); ("command", command)]) ;;
           send c (JObj [("type", JStr "ROBOT_RESPONSE");
                         ("success", JBool true)])
       | None =>
           send c (JObj [("type", JStr "ROBOT_RESPONSE");
                         ("success", JBool false);
                         ("error", JStr "ESP32 Roomba bridge not connected")])
       end
     else ret tt)).

(** *** Event dispatch *)

(** [wss.on('connection')]: the handler chosen by the request path; an
    unknown path gets [ws.close()]. *)
Definition on_connection (c : nat) (e : endpoint) : M unit :=
  match e with
  | EShutters | EIrrigation => ret tt
  | EApp => app_on_connect c
  | ENone => close c
  end.

Definition on_message (e : endpoint) (c : nat) (d : frame) : M unit :=
  match e with
  | EShutters => esp32_on_message c d
  | EIrrigation => irrigation_on_message c d
  | EApp => app_on_message c d
  | ENone => ret tt
  end.

Definition on_close (e : endpoint) (c : nat) : M unit :=
  match e with
  | EShutters => esp32_on_close c
  | EIrrigation => irrigation_on_close c
  | EApp | ENone => ret tt
  end.

(** Events of the WebSocket server: a new upgraded connection with its
    request path, an inbound frame, and a transport close. *)
Inductive event : Type :=
| EvConnect (c : nat) (url : string)
| EvMessage (c : nat) (d : frame)
| EvClose (c : nat).

Definition add_conn (c : nat) (e : endpoint) : M unit :=
  modify (fun h => with_io (conns h ++ [mkConn c e 1 false]) (sent h)
                           (closes h) h).

(** An exception escaping a handler reaches the process-level
    [uncaughtException] handler, which only logs it. *)
Definition run_handler (m : M unit) (h : hub) : hub := snd (m h).

(** One event, processed to completion. A connection identity is fresh at
    [EvConnect]; a closed socket emits neither messages nor a second
    [close]. *)
Definition step (h : hub) (ev : event) : hub :=
  match ev with
  | EvConnect c url =>
      match find_conn c (conns h) with
      | Some _ => h
      | None =>
          let e := endpoint_of_url url in
          run_handler (add_conn c e ;; on_connection c e) h
      end
  | EvMessage c d =>
      match find_conn c (conns h) with
      | Some k =>
          if Nat.eqb (cready k) 3 then h
          else run_handler (on_message (ckind k) c d) h
      | None => h
      end
  | EvClose c =>
      match find_conn c (conns h) with
      | Some k =>
          if Nat.eqb (cready k) 3 then h
          else run_handler (set_conn c (with_ready 3) ;; on_close (ckind k) c) h
      | None => h
      end
  end.

Fixpoint run (h : hub) (tr : list event) : hub :=
  match tr with
  | [] => h
  | ev :: tr' => run (step h ev) tr'
  end.

(** *** [POST /api/command] *)

(** The [command] object built from the request body. *)
Definition command_of (body : list (string * json)) : json :=
  obj [("type", Some (JStr "COMMAND")); ("action", assoc "action" body);
       ("channel", assoc "channel" body); ("value", assoc "value" body)].

(** The JSON body parsed by [express.json()] is an object; the response is
    a status code and a JSON body. *)
Definition api_command (body : list (string * json)) : M (Z * json) :=
  let token := assoc "token" body in
  secret <- gets (fun h => APP_SECRET (cfg h)) ;;
  if negb (is_str token secret) then
    ret (401%Z, JObj [("error", JStr "Unauthorized")])
  else
    live <- shutters_live ;;
    match live with
    | None => ret (503%Z, JObj [("error", JStr "ESP32 not connected")])
    | Some s =>
        let command := command_of body in
        ok <- attempt (send s command) ;;
        if ok then ret (200%Z, JObj [("success", JBool true); ("command", command)])
        else ret (500%Z, JObj [("error", JStr "Failed to send command")])
    end.

End Hub.

(** ** [DatabaseService.logIrrigation] ([src/unnamed/part_000]) *)

Module Database.

(** The service and its [irrigation_logs] table; [insert_ok] is whether the
    database accepts the next insert. *)
Record db : Type := mkDb {
  enabled : bool;
  insert_ok : bool;
  irrigation_rows : list json
}.

(** [logIrrigation(action, duration, waterUsed)]: one row when enabled and
    the insert succeeds, nothing otherwise (failures are only logged). *)
Definition logIrrigation (action : string) (duration waterUsed : Z)
  (ts : string) (d : db) : db :=
  if enabled d && insert_ok d then
    mkDb (enabled d) (insert_ok d)
      (irrigation_rows d ++
       [JObj [("action", JStr action); ("duration", JNum duration);
              ("water_used", JNum waterUsed);
              ("details", JObj [("timestamp", JStr ts)])]])
  else d.

(** The rows of the table recording an irrigation start. *)
Definition start_rows (rows : list json) : list json :=
  filter (fun r => is_str (jget r "action") "START") rows.

End Database.

(** ** [RoombaController.getStatus] ([src/controllers/roomba.js]) *)

Module Roomba.

(** An entry of [this.robots] (the vendor client object is left out: the
    status query never touches it). *)
Record robot : Type := mkRobot {
  rtype : string;
  rname : string;
  connected : bool;
  lastState : json
}.

Fixpoint map_get (id : string) (m : list (string * robot)) : option robot :=
  match m with
  | [] => None
  | (k, r) :: m' => if String.eqb k id then Some r else map_get id m'
  end.

(** [getStatus(robotId)]; [None] is the [Robot ... not found] exception,
    [ts] the clock reading of [new Date().toISOString()]. *)
Definition getStatus (robots : list (string * robot)) (robotId : string)
  (ts : string) : option json :=
  match map_get robotId robots with
  | None => None
  | Some r =>
      let state := lastState r in
      if negb (connected r) || negb (truthy (Some state)) then
        Some (JObj [("robot", JStr robotId); ("name", JStr (rname r));
                    ("type", JStr (rtype r));
                    ("connected", JBool (connected r));
                    ("battery", JNum 0);
                    ("phase", JStr (if connected r then "waiting"
                                    else "disconnected"));
                    ("error", if connected r then JNull
                              else JStr "Not connected to robot");
                    ("lastUpdate", JStr ts)])
      else
        let cms := jget state "cleanMissionStatus" in
        Some (JObj [("robot", JStr robotId); ("name", JStr (rname r));
                    ("type", JStr (rtype r));
                    ("connected", JBool true);
                    ("battery", or_default (jget state "batPct") (JNum 0));
                    ("phase", or_default (jget_opt cms "phase") (JStr "unknown"));
                    ("cycle", or_default (jget_opt cms "cycle") (JStr "none"));
                    ("binFull", or_default (jget_opt (jget state "bin") "full")
                                  (JBool false));
                    ("error", or_default (jget_opt cms "error") JNull);
                    ("position", or_default (jget state "pose") JNull);
                    ("lastUpdate", JStr ts)])
  end.

End Roomba.

(** ** Sample inputs *)

Module Samples.
Import Hub.

Definition h0 : hub := init_hub default_config [] "T".

Definition auth_frame (secret : string) : frame :=
  Text (JObj [("type", JStr "AUTH"); ("secret", JStr secret)]).

Definition shutters_auth : frame := auth_frame "your-esp32-secret-key".
Definition irrigation_auth : frame :=
  auth_frame "my-super-secret-irrigation-key-54321".

Definition state_frame (pos : Z) : frame :=
  Text (JObj [("type", JStr "STATE");
              ("data", JObj [("s1", JObj [("pos", JNum pos); ("dir", JNum 0)])])]).

Definition irrigation_frame (active : bool) : frame :=
  Text (JObj [("type", JStr "IRRIGATION_STATE");
              ("data", JObj [("active", JBool active); ("duration", JNum 60)])]).

Definition app_command (ty : string) : frame :=
  Text (JObj [("type", JStr ty); ("token", JStr "your-app-secret-key");
              ("action", JStr "OPEN"); ("channel", JNum 1)]).

End Samples.

(** ** Observations on traces *)

Module Registry.
Import Hub.

Definition is_shutters (e : endpoint) : bool :=
  match e with EShutters => true | _ => false end.

(** The frame [d] on connection [c] makes the [/esp32] handler take its
    successful authentication branch. *)
Definition shutters_auth_ok (h : hub) (c : nat) (d : frame) : bool :=
  match find_conn c (conns h), d with
  | Some k, Text m =>
      is_shutters (ckind k) && negb (Nat.eqb (cready k) 3) && negb (cauth k)
      && is_str (jget m "type") "AUTH"
      && is_str (jget m "secret") (ESP32_SECRET (cfg h))
  | _, _ => false
  end.

(** The transport close of the registered [/esp32] connection [c]. *)
Definition shutters_close_clears (h : hub) (c : nat) : bool :=
  match find_conn c (conns h) with
  | Some k => is_shutters (ckind k) && negb (Nat.eqb (cready k) 3)
              && opt_is (esp32Socket h) c
  | None => false
  end.

Definition registers (h : hub) (ev : event) : bool :=
  match ev with
  | EvMessage c d => shutters_auth_ok h c d
  | _ => false
  end.

(** Along [post], run from [h], no connection authenticates on [/esp32]
    and [c] does not close. *)
Fixpoint quiet (c : nat) (h : hub) (post : list event) : Prop :=
  match post with
  | [] => True
  | ev :: post' =>
      registers h ev = false /\ ev <> EvClose c /\ quiet c (step h ev) post'
  end.

Definition is_irrigation (e : endpoint) : bool :=
  match e with EIrrigation => true | _ => false end.

(** The frame [d] on connection [c] makes the [/esp32-irrigation] handler
    take its successful authentication branch. *)
Definition irrigation_auth_ok (h : hub) (c : nat) (d : frame) : bool :=
  match find_conn c (conns h), d with
  | Some k, Text m =>
      is_irrigation (ckind k) && negb (Nat.eqb (cready k) 3) && negb (cauth k)
      && is_str (jget m "type") "AUTH"
      && is_str (jget m "secret") (ESP32_IRRIGATION_SECRET (cfg h))
  | _, _ => false
  end.

(** The transport close of the registered [/esp32-irrigation] connection. *)
Definition irrigation_close_clears (h : hub) (c : nat) : bool :=
  match find_conn c (conns h) with
  | Some k => is_irrigation (ckind k) && negb (Nat.eqb (cready k) 3)
              && opt_is (esp32IrrigationSocket h) c
  | None => false
  end.

Definition irrigation_registers (h : hub) (ev : event) : bool :=
  match ev with
  | EvMessage c d => irrigation_auth_ok h c d
  | _ => false
  end.

(** Along [post], run from [h], no connection authenticates on
    [/esp32-irrigation] and [c] does not close. *)
Fixpoint irrigation_quiet (c : nat) (h : hub) (post : list event) : Prop :=
  match post with
  | [] => True
  | ev :: post' =>
      irrigation_registers h ev = false /\ ev <> EvClose c
      /\ irrigation_quiet c (step h ev) post'
  end.

(** Connection [k] is the registered device of its class. *)
Definition registered_for (h : hub) (k : conn) : bool :=
  match ckind k with
  | EShutters => opt_is (esp32Socket h) (cid k)
  | EIrrigation => opt_is (esp32IrrigationSocket h) (cid k)
  | EApp | ENone => false
  end.

End Registry.

(** ** The HTTP routes of [src/index.js] *)

Module Http.
Import Hub.

(** A response: the status code and the JSON body. *)
Definition response : Type := (Z * json)%type.

(** An exception thrown synchronously by a route handler reaches Express's
    default error handler, which answers 500. *)
Definition express (m : M response) : M response :=
  fun h =>
    match m h with
    | (Ok r, h') => (Ok r, h')
    | (Thrown, h') => (Ok (500%Z, JStr "Internal Server Error"), h')
    end.

(** [GET /health] *)
Definition health (h : hub) : response :=
  (200%Z,
   obj [("status", Some (JStr "ok"));
        ("esp32Connected",
           Some (JBool (match esp32Socket h with
                        | Some s => Nat.eqb (ready_of h s) 1
                        | None => false
                        end)));
        ("lastUpdate", jget (shuttersState h) "lastUpdate")]).

(** [GET /api/state] *)
Definition api_state (h : hub) : response := (200%Z, shuttersState h).

(** [GET /api/schedules] *)
Definition api_schedules : M response :=
  express (
    live <- shutters_live ;;
    match live with
    | None => ret (503%Z, JObj [("error", JStr "ESP32 not connected")])
    | Some s =>
        send s (msg_type "GET_SCHEDULES") ;;
        ret (200%Z, JObj [("message", JStr "Schedules request sent to ESP32")])
    end).

(** [GET /api/robots] *)
Definition api_robots (h : hub) : response := (200%Z, robotsState h).

(** The members every plain object inherits from [Object.prototype]. *)
Definition object_prototype_keys : list string :=
  ["constructor"; "__defineGetter__"; "__defineSetter__"; "hasOwnProperty";
   "__lookupGetter__"; "__lookupSetter__"; "isPrototypeOf";
   "propertyIsEnumerable"; "toString"; "valueOf"; "__proto__";
   "toLocaleString"].

(** [o[k]] on a plain object: an own property, else an inherited member:
    [__proto__] is [Object.prototype], an object with no own enumerable
    property ([JSON.stringify] gives [{}]), every other one a function (the
    outer [None]); else [undefined] ([Some None]). *)
Definition member (o : json) (k : string) : option (option json) :=
  match jget o k with
  | Some v => Some (Some v)
  | None =>
      if String.eqb k "__proto__" then Some (Some (JObj []))
      else if existsb (String.eqb k) object_prototype_keys then None
      else Some None
  end.

(** Truthiness of [o[k]]: an inherited member is an object or a function. *)
Definition member_truthy (o : json) (k : string) : bool :=
  match member o k with
  | None => true
  | Some v => truthy v
  end.

(** [GET /api/robots/:id]; the body is [None] when [res.json] is given a
    function ([JSON.stringify] gives [undefined]: an empty body). *)
Definition api_robot (robotId : string) (h : hub) : Z * option json :=
  match member (robotsState h) robotId with
  | None => (200%Z, None)
  | Some v =>
      if truthy v then (200%Z, v)
      else (404%Z, Some (JObj [("error", JStr "Robot not found")]))
  end.

(** [POST /api/robots/:id/command] *)
Definition api_robot_command (robotId : string) (body : list (string * json))
  : M response :=
  express (
    let token := assoc "token" body in
    let command := assoc "command" body in
    secret <- gets (fun h => APP_SECRET (cfg h)) ;;
    if negb (is_str token secret) then
      ret (401%Z, JObj [("error", JStr "Unauthorized")])
    else
      known <- gets (fun h => member_truthy (robotsState h) robotId) ;;
      if negb known then ret (404%Z, JObj [("error", JStr "Robot not found")])
      else
        live <- shutters_live ;;
        match live with
        | None => ret (503%Z, JObj [("error", JStr "ESP32 bridge not connected")])
        | Some s =>
            send s (obj [("type", Some (JStr "ROBOT_FORWARD_COMMAND"));
                         ("robotId", Some (JStr robotId));
                         ("command", command)]) ;;
            ret (200%Z, JObj [("success", JBool true);
                              ("message", JStr "Command forwarded to ESP32 bridge")])
        end).

(** The answer of a route run on [h]. *)
Definition answer (m : M response) (h : hub) : option response :=
  match fst (m h) with
  | Ok r => Some r
  | Thrown => None
  end.

End Http.

(** ** The rest of [RoombaController] ([src/controllers/roomba.js]) *)

Module RoombaCtl.
Import Roomba.

(** [this.robots.set(id, r)]: an existing key keeps its place. *)
Fixpoint map_set (id : string) (r : robot) (m : list (string * robot))
  : list (string * robot) :=
  match m with
  | [] => [(id, r)]
  | (k, r') :: m' => if String.eqb k id then (k, r) :: m' else (k, r') :: map_set id r m'
  end.

(** [c?.ip && c?.blid && c?.password] on the robot's entry of the config. *)
Definition has_credentials (config : json) (key : string) : bool :=
  let c := jget config key in
  truthy (jget_opt c "ip") && truthy (jget_opt c "blid")
  && truthy (jget_opt c "password").

(** [_initRobot]: [client_ok id] is whether [new dorita980.Local(...)] returns
    (a throw is caught and only logged). *)
Definition _initRobot (robotId type name : string) (client_ok : string -> bool)
  (m : list (string * robot)) : list (string * robot) :=
  if client_ok robotId then map_set robotId (mkRobot type name false JNull) m
  else m.

(** [initializeRobots] run by the constructor on a fresh map; [None] is the
    [TypeError] of [this.config.roomba_j7] when the config is [null]. *)
Definition initializeRobots (config : json) (client_ok : string -> bool)
  : option (list (string * robot)) :=
  match config with
  | JNull => None
  | _ =>
      let m1 := if has_credentials config "roomba_j7"
                then _initRobot "roomba_j7" "vacuum" "Roomba j7" client_ok []
                else [] in
      Some (if has_credentials config "braava_jet"
            then _initRobot "braava_jet" "mop" "Braava Jet" client_ok m1
            else m1)
  end.

(** The events of a dorita980 client. *)
Inductive client_event : Type :=
| CError
| CConnect
| CClose
| COffline
| CState (s : json).

(** The listeners registered by [_initRobot] for robot [robotId]. *)
Definition on_client_event (robotId : string) (ev : client_event)
  (m : list (string * robot)) : list (string * robot) :=
  match map_get robotId m with
  | None => m
  | Some r =>
      let r' := match ev with
                | CError | CClose | COffline =>
                    mkRobot (rtype r) (rname r) false (lastState r)
                | CConnect => mkRobot (rtype r) (rname r) true (lastState r)
                | CState s => mkRobot (rtype r) (rname r) true s
                end in
      map_set robotId r' m
  end.

(** The controller: the robots, [this.pollingInterval], the live interval
    timers, the next timer handle, the [statusUpdate] emissions, the calls
    made on the vendor clients (robot, method, argument) and the clock. *)
Record ctl : Type := mkCtl {
  robots : list (string * robot);
  pollingInterval : option nat;
  timers : list nat;
  next_timer : nat;
  emitted : list json;
  vendor_calls : list (string * string * json);
  clock : string
}.

(** Settlement of the promise an [async] method returns. *)
Inductive settled : Type :=
| Resolved (v : json)
| Rejected (msg : string).

(** [_getConnectedRobot]: [None] is the [Robot ... not found] error. *)
Definition _getConnectedRobot (robotId : string) (c : ctl) : option robot :=
  map_get robotId (robots c).

Definition not_found (robotId : string) : string :=
  "Robot " ++ robotId ++ " not found".

Definition with_call (call : string * string * json) (c : ctl) : ctl :=
  mkCtl (robots c) (pollingInterval c) (timers c) (next_timer c) (emitted c)
    (vendor_calls c ++ [call]) (clock c).

(** [start], [pause], [stop] and [dock]: [meth] is the client method awaited,
    [status] the reported status, [vendor] the rejection of the client's
    promise, if any (rethrown). *)
Definition robot_command (meth status : string) (robotId : string)
  (vendor : option string) (c : ctl) : settled * ctl :=
  match _getConnectedRobot robotId c with
  | None => (Rejected (not_found robotId), c)
  | Some r =>
      let c' := with_call (robotId, meth, JNull) c in
      match vendor with
      | Some e => (Rejected e, c')
      | None => (Resolved (JObj [("status", JStr status); ("robot", JStr robotId)]), c')
      end
  end.

Definition start := robot_command "start" "started".
Definition pause := robot_command "pause" "paused".
Definition stop := robot_command "stop" "stopped".
Definition dock := robot_command "dock" "docking".

(** [v?.[0]] *)
Definition index0 (v : option json) : option json :=
  match v with
  | Some (JArr (x :: _)) => Some x
  | Some (JObj l) => assoc "0" l
  | Some (JStr (String a _)) => Some (JStr (String a EmptyString))
  | _ => None
  end.

(** [robot.lastState?.pmaps?.[0]?.id || ''] *)
Definition map_id (state : json) : json :=
  let st := match state with JNull => None | _ => Some state end in
  or_default (jget_opt (index0 (jget_opt st "pmaps")) "id") (JStr "").

(** [cleanRoom(robotId, roomId)] *)
Definition cleanRoom (robotId : string) (roomId : json) (vendor : option string)
  (c : ctl) : settled * ctl :=
  match _getConnectedRobot robotId c with
  | None => (Rejected (not_found robotId), c)
  | Some r =>
      if negb (String.eqb (rtype r) "vacuum") then
        (Rejected "Room cleaning only available for vacuum robots", c)
      else
        let args := JObj [("ordered", JNum 1); ("pmap_id", map_id (lastState r));
                          ("regions", JArr [JObj [("region_id", roomId);
                                                  ("type", JStr "rid")]])] in
        let c' := with_call (robotId, "cleanRoom", args) c in
        match vendor with
        | Some e => (Rejected e, c')
        | None => (Resolved (JObj [("status", JStr "cleaning_room");
                                   ("robot", JStr robotId); ("room", roomId)]), c')
        end
  end.

(** [getAllStatus()] *)
Definition getAllStatus (m : list (string * robot)) (ts : string) : json :=
  JObj (fold_left
          (fun acc kv =>
             let robotId := fst kv in
             set_field robotId
               (match getStatus m robotId ts with
                | Some s => s
                | None => JObj [("robot", JStr robotId); ("connected", JBool false);
                                ("error", JStr (not_found robotId))]
                end) acc)
          m []).

Definition emit_status (c : ctl) : ctl :=
  mkCtl (robots c) (pollingInterval c) (timers c) (next_timer c)
    (emitted c ++ [getAllStatus (robots c) (clock c)]) (vendor_calls c) (clock c).

(** [clearInterval(i)] *)
Definition clearInterval (i : nat) (c : ctl) : ctl :=
  mkCtl (robots c) (pollingInterval c) (remove Nat.eq_dec i (timers c))
    (next_timer c) (emitted c) (vendor_calls c) (clock c).

(** [startPolling()]: the previous interval is cleared, a new one set, and a
    first status emitted at once. *)
Definition startPolling (c : ctl) : ctl :=
  let c1 := match pollingInterval c with
            | Some i => clearInterval i c
            | None => c
            end in
  let i := next_timer c1 in
  let c2 := mkCtl (robots c1) (Some i) (timers c1 ++ [i]) (S i) (emitted c1)
              (vendor_calls c1) (clock c1) in
  emit_status c2.

(** [stopPolling()] *)
Definition stopPolling (c : ctl) : ctl :=
  match pollingInterval c with
  | Some i =>
      let c1 := clearInterval i c in
      mkCtl (robots c1) None (timers c1) (next_timer c1) (emitted c1)
        (vendor_calls c1) (clock c1)
  | None => c
  end.

(** The timer [i] fires: a live interval emits the statuses. *)
Definition tick (i : nat) (c : ctl) : ctl :=
  if existsb (Nat.eqb i) (timers c) then emit_status c else c.

(** [getRobotList()] *)
Definition getRobotList (m : list (string * robot)) : json :=
  JArr (map (fun kv => JObj [("id", JStr (fst kv)); ("name", JStr (rname (snd kv)));
                             ("type", JStr (rtype (snd kv)));
                             ("connected", JBool (connected (snd kv)))]) m).

(** [disconnect()]: [end_throws id] is whether [robot.client.end()] throws,
    which skips [robot.connected = false] for that robot. *)
Definition disconnect (end_throws : string -> bool) (c : ctl) : ctl :=
  let c1 := stopPolling c in
  mkCtl (map (fun kv => if end_throws (fst kv) then kv
                        else (fst kv, mkRobot (rtype (snd kv)) (rname (snd kv))
                                                false (lastState (snd kv))))
             (robots c1))
    (pollingInterval c1) (timers c1) (next_timer c1) (emitted c1)
    (vendor_calls c1) (clock c1).

(** The calls a program of the controller makes. *)
Inductive ctl_call : Type :=
| StartPolling
| StopPolling
| Tick (i : nat).

Definition ctl_step (c : ctl) (x : ctl_call) : ctl :=
  match x with
  | StartPolling => startPolling c
  | StopPolling => stopPolling c
  | Tick i => tick i c
  end.

Definition ctl_run (c : ctl) (xs : list ctl_call) : ctl := fold_left ctl_step xs c.

End RoombaCtl.

(** ** The rest of [DatabaseService] ([src/unnamed/part_000]) *)

Module DatabaseSvc.

(** The service ([this.supabase] set, [this.enabled]) and its two tables. *)
Record service : Type := mkService {
  supabase : bool;
  enabled : bool;
  irrigation_table : list json;
  robot_table : list json
}.

(** [module.exports = new DatabaseService()] *)
Definition service0 : service := mkService false false [] [].

(** [!url || !key] on values read from the environment. *)
Definition present (v : option string) : bool :=
  match v with
  | Some s => negb (String.eqb s "")
  | None => false
  end.

(** [initialize(url, key)]; [create_ok] is whether [createClient] returns. *)
Definition initialize (url key : option string) (create_ok : bool) (s : service)
  : service :=
  if negb (present url && present key) then s
  else if create_ok then mkService true true (irrigation_table s) (robot_table s)
  else s.

(** A parameter with a default: only [undefined] takes it. *)
Definition default (v : option json) (d : json) : json :=
  match v with
  | Some v' => v'
  | None => d
  end.

(** [logIrrigation(action, duration = 0, waterUsed = 0)]; [insert_ok] is
    whether the insert reports no error. *)
Definition logIrrigation (action : json) (duration waterUsed : option json)
  (ts : string) (insert_ok : bool) (s : service) : service :=
  if negb (enabled s) then s
  else if insert_ok then
    mkService (supabase s) (enabled s)
      (irrigation_table s ++
       [JObj [("action", action); ("duration", default duration (JNum 0));
              ("water_used", default waterUsed (JNum 0));
              ("details", JObj [("timestamp", JStr ts)])]])
      (robot_table s)
  else s.

(** [logRobotMission(robotId, action, status, details = {})] *)
Definition logRobotMission (robotId action status : json) (details : option json)
  (insert_ok : bool) (s : service) : service :=
  if negb (enabled s) then s
  else if insert_ok then
    mkService (supabase s) (enabled s) (irrigation_table s)
      (robot_table s ++
       [JObj [("robot_id", robotId); ("action", action); ("status", status);
              ("details", default details (JObj []))]])
  else s.

(** [getIrrigationHistory] and [getRobotHistory]: [answer] is the rows the
    query returns, [None] when it reports an error. *)
Definition getHistory (answer : option (list json)) (s : service) : list json :=
  if negb (enabled s) then []
  else match answer with
       | Some rows => rows
       | None => []
       end.

(** The calls made on the service. *)
Inductive db_call : Type :=
| Initialize (url key : option string) (create_ok : bool)
| LogIrrigation (action : json) (duration waterUsed : option json) (ts : string)
    (insert_ok : bool)
| LogRobotMission (robotId action status : json) (details : option json)
    (insert_ok : bool).

Definition db_step (s : service) (x : db_call) : service :=
  match x with
  | Initialize url key ok => initialize url key ok s
  | LogIrrigation a d w ts ok => logIrrigation a d w ts ok s
  | LogRobotMission r a st d ok => logRobotMission r a st d ok s
  end.

Definition db_run (s : service) (xs : list db_call) : service := fold_left db_step xs s.

(** The call enables the service. *)
Definition enables (x : db_call) : bool :=
  match x with
  | Initialize url key ok => present url && present key && ok
  | _ => false
  end.

Definition is_irrigation_log (x : db_call) : bool :=
  match x with LogIrrigation _ _ _ _ _ => true | _ => false end.

Definition is_robot_log (x : db_call) : bool :=
  match x with LogRobotMission _ _ _ _ _ => true | _ => false end.

End DatabaseSvc.

(** ** Observations used by the further properties *)

Module Observe.
Import Hub.

(** The connections [broadcastToApps] sends to from [h]: OPEN, and not the
    registered shutters device. *)
Definition recipients (h : hub) : list conn :=
  filter (fun k => Nat.eqb (cready k) 1 && negb (opt_is (esp32Socket h) (cid k)))
    (conns h).

Definition deliveries (ks : list conn) (m : json) : list (nat * json) :=
  map (fun k => (cid k, m)) ks.

(** The secret a device connection authenticates with. *)
Definition device_secret (c : config) (e : endpoint) : string :=
  match e with
  | EShutters => ESP32_SECRET c
  | EIrrigation => ESP32_IRRIGATION_SECRET c
  | EApp | ENone => ""
  end.

(** The three cached states of the hub. *)
Definition cached (h : hub) : json * json * json :=
  (shuttersState h, irrigationState h, robotsState h).

End Observe.

(** ** Sample configurations *)

Module Scenarios.
Import Hub.

(** The relay after an authenticated [/esp32] bridge (1), an app (2) and a
    not yet authenticated [/esp32-irrigation] board (3) connected. *)
Definition hA : hub :=
  run Samples.h0 [EvConnect 1 "/esp32"; EvMessage 1 Samples.shutters_auth;
                  EvConnect 2 "/app"; EvConnect 3 "/esp32-irrigation"].

(** A [/esp32] connection (1) that has not authenticated, and an app (2). *)
Definition hB : hub := run Samples.h0 [EvConnect 1 "/esp32"; EvConnect 2 "/app"].

Definition vacuum : Roomba.robot := Roomba.mkRobot "vacuum" "Roomba j7" true JNull.
Definition mop : Roomba.robot := Roomba.mkRobot "mop" "Braava Jet" false JNull.

Definition fleet : list (string * Roomba.robot) :=
  [("roomba_j7", vacuum); ("braava_jet", mop)].

Definition ctl0 : RoombaCtl.ctl := RoombaCtl.mkCtl fleet None [] 0 [] [] "T".

(** A [config.json] with the credentials of the Roomba only. *)
Definition robots_config : json :=
  JObj [("roomba_j7", JObj [("ip", JStr "10.0.0.5"); ("blid", JStr "B");
                            ("password", JStr "P")])].

End Scenarios.

(** * Properties *)

(** ** Frame lemmas: what a handler leaves untouched *)

Module Frame.
Import Hub.

Definition pres {X A : Type} (f : hub -> X) (m : M A) : Prop :=
  forall h, f (snd (m h)) = f h.

(** [f] does not look at the transport-side fields. *)
Definition io_blind {X : Type} (f : hub -> X) : Prop :=
  forall cs s cl h, f (with_io cs s cl h) = f h.

(** [f] does not look at the delivered messages. *)
Definition sent_blind {X : Type} (f : hub -> X) : Prop :=
  forall s h, f (with_io (conns h) s (closes h) h) = f h.

Section Pres.
Context {X : Type} (f : hub -> X).

Lemma pres_ret {A} (a : A) : pres f (ret a).
Proof. intro h; reflexivity. Qed.

Lemma pres_throw {A} : pres f (@throw A).
Proof. intro h; reflexivity. Qed.

Lemma pres_gets {A} (g : hub -> A) : pres f (gets g).
Proof. intro h; reflexivity. Qed.

Lemma pres_modify (g : hub -> hub) :
  (forall h, f (g h) = f h) -> pres f (modify g).
Proof. intros Hg h; apply Hg. Qed.

Lemma pres_bind {A B} (m : M A) (k : A -> M B) :
  pres f m -> (forall a, pres f (k a)) -> pres f (bind m k).
Proof.
  intros Hm Hk h; unfold bind.
  specialize (Hm h).
  destruct (m h) as [[a|] h'] eqn:E; simpl in *.
  - rewrite Hk; exact Hm.
  - exact Hm.
Qed.

Lemma pres_try (m : M unit) : pres f m -> pres f (try_catch m).
Proof. intros Hm h; apply Hm. Qed.

Lemma pres_attempt (m : M unit) : pres f m -> pres f (attempt m).
Proof.
  intros Hm h; unfold attempt; specialize (Hm h).
  destruct (m h) as [[a|] h']; exact Hm.
Qed.

Lemma pres_parse (d : frame) : pres f (parse d).
Proof. destruct d; intro h; reflexivity. Qed.

Lemma pres_prop (v : json) (k : string) : pres f (prop v k).
Proof. destruct v; intro h; reflexivity. Qed.

Hypothesis Hsent : sent_blind f.

Lemma pres_send (c : nat) (m : json) : pres f (send c m).
Proof.
  intro h; unfold send.
  destruct (ready_of h c) as [|[|n]]; simpl; try reflexivity.
  destruct (throws_on h c); simpl; [reflexivity | apply Hsent].
Qed.

Lemma pres_broadcast_over (l : list conn) (m : json) :
  pres f (broadcast_over l m).
Proof.
  induction l as [|k l IH]; simpl.
  - apply pres_ret.
  - apply pres_bind; [apply pres_gets | intro reg].
    apply pres_bind; [| intros _; exact IH].
    destruct (_ && _); [apply pres_send | apply pres_ret].
Qed.

Lemma pres_broadcast (m : json) : pres f (broadcastToApps m).
Proof.
  apply pres_bind; [apply pres_gets | intro cs; apply pres_broadcast_over].
Qed.

Lemma pres_is_command (m : json) (ty : string) : pres f (is_command m ty).
Proof.
  unfold is_command; apply pres_bind; [apply pres_prop | intro t].
  destruct (is_str t ty); [| apply pres_ret].
  apply pres_bind; [apply pres_prop | intro tok].
  apply pres_bind; [apply pres_gets | intro s; apply pres_ret].
Qed.

Hypothesis Hio : io_blind f.

Lemma pres_close (c : nat) : pres f (close c).
Proof. intro h; apply Hio. Qed.

Lemma pres_set_conn (c : nat) (g : conn -> conn) : pres f (set_conn c g).
Proof. intro h; apply Hio. Qed.

End Pres.

(** Decompose a handler into its primitive steps. *)
Ltac pres_step :=
  match goal with
  | |- pres _ (bind _ _) => apply pres_bind; [| intro]
  | |- pres _ (try_catch _) => apply pres_try
  | |- pres _ (attempt _) => apply pres_attempt
  | |- pres _ (ret _) => apply pres_ret
  | |- pres _ (gets _) => apply pres_gets
  | |- pres _ throw => apply pres_throw
  | |- pres _ (parse _) => apply pres_parse
  | |- pres _ (prop _ _) => apply pres_prop
  | |- pres _ (send _ _) => apply pres_send
  | |- pres _ (broadcastToApps _) => apply pres_broadcast
  | |- pres _ (is_command _ _) => apply pres_is_command
  | |- pres _ (close _) => apply pres_close
  | |- pres _ (set_conn _ _) => apply pres_set_conn
  | |- pres _ (get_auth _) => apply pres_gets
  | |- pres _ (esp32_auth _ _) => unfold esp32_auth
  | |- pres _ (esp32_dispatch _) => unfold esp32_dispatch
  | |- pres _ (irrigation_auth _ _) => unfold irrigation_auth
  | |- pres _ (irrigation_dispatch _) => unfold irrigation_dispatch
  | |- pres _ shutters_live => apply pres_gets
  | |- pres _ irrigation_live => apply pres_gets
  | |- pres _ (if ?b then _ else _) => destruct b
  | |- pres _ (match ?x with _ => _ end) => destruct x
  | |- pres _ (set_esp32Socket _) =>
      unfold set_esp32Socket; apply pres_modify; intro; reflexivity
  | |- pres _ (set_esp32IrrigationSocket _) =>
      unfold set_esp32IrrigationSocket; apply pres_modify; intro; reflexivity
  | |- pres _ (set_shuttersState _) =>
      unfold set_shuttersState; apply pres_modify; intro; reflexivity
  | |- pres _ (set_irrigationState _) =>
      unfold set_irrigationState; apply pres_modify; intro; reflexivity
  | |- pres _ (set_robotsState _) =>
      unfold set_robotsState; apply pres_modify; intro; reflexivity
  | |- pres _ (add_conn _ _) =>
      unfold add_conn; apply pres_modify; intro; reflexivity
  | |- sent_blind _ => intros ? ?; reflexivity
  | |- io_blind _ => intros ? ? ? ?; reflexivity
  end.

Ltac pres_tac := repeat pres_step.

(** Run a handler up to its sends, closes and broadcasts, each of which
    leaves [f] unchanged. *)
Ltac io_simpl f :=
  repeat (cbn -[send broadcast_over close] in *;
  lazymatch goal with
  | |- context [broadcast_over ?l ?m ?h1] =>
      let P := fresh "P" in
      pose proof (pres_broadcast_over f ltac:(intros ? ?; reflexivity) l m h1)
        as P;
      destruct (broadcast_over l m h1) as [[?|] ?]
  | |- context [send ?c ?m ?h1] =>
      let P := fresh "P" in
      pose proof (pres_send f ltac:(intros ? ?; reflexivity) c m h1) as P;
      destruct (send c m h1) as [[?|] ?]
  | |- context [close ?c ?h1] =>
      let P := fresh "P" in
      pose proof (pres_close f ltac:(intros ? ? ? ?; reflexivity) c h1) as P;
      destruct (close c h1) as [[?|] ?]
  end); cbn -[send broadcast_over close] in *.

Ltac case_is_str :=
  repeat (match goal with
          | |- context [if is_str ?a ?b then _ else _] => destruct (is_str a b)
          end; cbn -[send close broadcast_over is_str]).

Lemma find_conn_update_other (c p : nat) (g : conn -> conn) (l : list conn) :
  p <> c -> (forall k, cid (g k) = cid k) ->
  find_conn p (update_conn c g l) = find_conn p l.
Proof.
  intros Hpc Hg; induction l as [|k l IH]; simpl; [reflexivity|].
  destruct (Nat.eqb (cid k) c) eqn:E.
  - apply Nat.eqb_eq in E. rewrite Hg, E.
    replace (Nat.eqb c p) with false by (symmetry; apply Nat.eqb_neq; auto).
    exact IH.
  - destruct (Nat.eqb (cid k) p); [reflexivity | exact IH].
Qed.

Lemma find_conn_update_same (c : nat) (g : conn -> conn) (l : list conn) :
  (forall k, cid (g k) = cid k) ->
  find_conn c (update_conn c g l) = option_map g (find_conn c l).
Proof.
  intros Hg; induction l as [|k l IH]; simpl; [reflexivity|].
  destruct (Nat.eqb (cid k) c) eqn:E.
  - rewrite Hg, E; reflexivity.
  - rewrite E; exact IH.
Qed.

Lemma find_conn_cid (c : nat) (l : list conn) (k : conn) :
  find_conn c l = Some k -> cid k = c.
Proof.
  induction l as [|k' l IH]; simpl; [discriminate|].
  destruct (Nat.eqb (cid k') c) eqn:E; [|exact IH].
  intro H; injection H as <-; apply Nat.eqb_eq; exact E.
Qed.

Lemma find_conn_app_fresh (c : nat) (l l' : list conn) :
  find_conn c l = None -> find_conn c (l ++ l') = find_conn c l'.
Proof.
  induction l as [|k l IH]; simpl; [reflexivity|].
  destruct (Nat.eqb (cid k) c); [discriminate | exact IH].
Qed.

(** *** The registry of the shutters class *)

Lemma esp32_dispatch_keeps_reg (m : json) : pres esp32Socket (esp32_dispatch m).
Proof. pres_tac. Qed.

Lemma irrigation_keeps_reg (c : nat) (d : frame) :
  pres esp32Socket (irrigation_on_message c d).
Proof. unfold irrigation_on_message; pres_tac. Qed.

Lemma app_keeps_reg (c : nat) (d : frame) :
  pres esp32Socket (app_on_message c d).
Proof. unfold app_on_message; pres_tac. Qed.

(** A message registers its connection exactly when it authenticates it. *)
Lemma reg_after_message (h : hub) (c : nat) (d : frame) :
  esp32Socket (step h (EvMessage c d))
  = if Registry.shutters_auth_ok h c d then Some c else esp32Socket h.
Proof.
  unfold step, Registry.shutters_auth_ok.
  destruct (find_conn c (conns h)) as [k|] eqn:Hf; [|reflexivity].
  destruct (Nat.eqb (cready k) 3) eqn:Hr.
  { destruct d; [rewrite !andb_false_r, !andb_false_l|]; reflexivity. }
  unfold run_handler.
  destruct (ckind k) eqn:Hk; simpl Registry.is_shutters; simpl andb.
  - destruct d as [m|]; [|reflexivity].
    unfold on_message, esp32_on_message, try_catch, bind, ret, gets, parse,
      get_auth.
    cbn -[esp32_auth esp32_dispatch]. rewrite Hf.
    destruct (cauth k) eqn:Ha; cbn [negb andb].
    + rewrite ?andb_false_r. apply esp32_dispatch_keeps_reg.
    + unfold esp32_auth. destruct m; try (cbn; reflexivity);
        unfold bind, ret, gets, prop, set_conn, set_esp32Socket, modify;
        cbn -[send close is_str]; case_is_str; io_simpl esp32Socket;
        congruence.
  - destruct d; apply irrigation_keeps_reg.
  - destruct d; apply app_keeps_reg.
  - destruct d; reflexivity.
Qed.

(** A close clears the registry exactly when it is the registered
    connection's own close. *)
Lemma reg_after_close (h : hub) (c : nat) :
  esp32Socket (step h (EvClose c))
  = if Registry.shutters_close_clears h c then None else esp32Socket h.
Proof.
  unfold step, Registry.shutters_close_clears.
  destruct (find_conn c (conns h)) as [k|] eqn:Hf; [|reflexivity].
  destruct (Nat.eqb (cready k) 3) eqn:Hr.
  { rewrite andb_false_r, andb_false_l; reflexivity. }
  unfold run_handler.
  destruct (ckind k) eqn:Hk; cbn [Registry.is_shutters negb andb].
  - unfold on_close, esp32_on_close, bind, gets, set_conn, modify,
      set_esp32Socket, set_robotsState, ret.
    cbn -[broadcast_over opt_is].
    destruct (opt_is (esp32Socket h) c); io_simpl esp32Socket; congruence.
  - unfold on_close, irrigation_on_close, bind, gets, set_conn, modify,
      set_esp32IrrigationSocket, ret.
    cbn -[opt_is]. destruct (opt_is _ c); reflexivity.
  - reflexivity.
  - reflexivity.
Qed.

Lemma reg_after_connect (h : hub) (c : nat) (url : string) :
  esp32Socket (step h (EvConnect c url)) = esp32Socket h.
Proof.
  unfold step. destruct (find_conn c (conns h)); [reflexivity|].
  unfold run_handler.
  generalize (endpoint_of_url url); intro e.
  assert (P : pres esp32Socket (add_conn c e ;; on_connection c e)).
  { pres_tac. destruct e; simpl; [| | unfold app_on_connect|]; pres_tac. }
  apply P.
Qed.

(** The registration survives every event that neither authenticates a
    connection on [/esp32] nor closes the registered connection. *)
Lemma reg_stays (h : hub) (c : nat) (post : list event) :
  esp32Socket h = Some c -> Registry.quiet c h post ->
  esp32Socket (run h post) = Some c.
Proof.
  revert h; induction post as [|ev post IH]; intros h Hreg Hq; simpl in *.
  - exact Hreg.
  - destruct Hq as (Hnr & Hnc & Hq). apply IH; [|exact Hq].
    destruct ev as [c' url|c' d|c'].
    + rewrite reg_after_connect; exact Hreg.
    + rewrite reg_after_message. simpl in Hnr. rewrite Hnr. exact Hreg.
    + rewrite reg_after_close.
      unfold Registry.shutters_close_clears.
      destruct (find_conn c' (conns h)); [|exact Hreg].
      rewrite Hreg. unfold opt_is.
      replace (Nat.eqb c c') with false
        by (symmetry; apply Nat.eqb_neq; intro E; subst; apply Hnc; reflexivity).
      rewrite andb_false_r; reflexivity.
Qed.

Lemma run_app (h : hub) (tr tr' : list event) :
  run h (tr ++ tr') = run (run h tr) tr'.
Proof. revert h; induction tr; simpl; auto. Qed.

(** A successful authentication touches no other connection and closes
    nothing. *)
Lemma auth_keeps_others (h : hub) (c p : nat) (d : frame) :
  Registry.shutters_auth_ok h c d = true -> p <> c ->
  find_conn p (conns (step h (EvMessage c d))) = find_conn p (conns h)
  /\ closes (step h (EvMessage c d)) = closes h.
Proof.
  intros Hok Hpc. unfold Registry.shutters_auth_ok in Hok.
  destruct (find_conn c (conns h)) as [k|] eqn:Hf; [|discriminate].
  destruct d as [m|]; [|discriminate].
  apply andb_prop in Hok as [Hok Hs]; apply andb_prop in Hok as [Hok Ht].
  apply andb_prop in Hok as [Hok Ha]; apply andb_prop in Hok as [Hk Hr].
  destruct m as [| | | | |l]; try discriminate. simpl jget in Ht, Hs.
  apply negb_true_iff in Ha, Hr.
  unfold step; rewrite Hf, Hr; unfold run_handler.
  destruct (ckind k); try discriminate.
  unfold on_message, esp32_on_message, try_catch, bind, ret, gets, parse,
    get_auth.
  cbn -[esp32_auth esp32_dispatch]. rewrite Hf, Ha. cbn [negb].
  unfold esp32_auth, bind, ret, gets, prop, set_conn, set_esp32Socket, modify.
  cbn -[send close is_str]. rewrite Ht. cbn -[send close is_str].
  rewrite Hs. cbn -[send close is_str].
  io_simpl (fun h => (find_conn p (conns h), closes h));
  repeat match goal with H : (_, _) = (_, _) |- _ => injection H as ?H ?H end;
  rewrite find_conn_update_other in * by (auto; reflexivity);
  split; congruence.
Qed.

(** An authenticated [/esp32] connection replaces the shutters state with
    every [STATE] message, registered or not. *)
Lemma state_message_replaces (h : hub) (p : nat) (k : conn)
  (l : list (string * json)) :
  find_conn p (conns h) = Some k -> ckind k = EShutters -> cauth k = true ->
  cready k <> 3 -> assoc "type" l = Some (JStr "STATE") ->
  shuttersState (step h (EvMessage p (Text (JObj l))))
  = spread_stamp (assoc "data" l) (now h).
Proof.
  intros Hf Hk Ha Hr Ht. apply Nat.eqb_neq in Hr.
  unfold step; rewrite Hf, Hr, Hk; unfold run_handler.
  unfold on_message, esp32_on_message, try_catch, bind, ret, gets, parse,
    get_auth.
  cbn -[esp32_auth esp32_dispatch]. rewrite Hf, Ha. cbn [negb].
  unfold esp32_dispatch, bind, ret, gets, prop, set_shuttersState, modify.
  cbn -[broadcast_over is_str]. rewrite Ht. cbn -[broadcast_over is_str].
  io_simpl shuttersState; congruence.
Qed.

Lemma esp32_live_open (h : hub) (s : nat) :
  esp32_live h = Some s -> ready_of h s = 1.
Proof.
  unfold esp32_live. destruct (esp32Socket h) as [n|]; [|discriminate].
  destruct (Nat.eqb (ready_of h n) 1) eqn:E; [|discriminate].
  intro H; injection H as <-. apply Nat.eqb_eq; exact E.
Qed.

(** *** The irrigation handler *)

Lemma irrigation_message_replaces (h : hub) (c : nat) (k : conn)
  (l : list (string * json)) :
  find_conn c (conns h) = Some k -> ckind k = EIrrigation -> cauth k = true ->
  cready k <> 3 -> assoc "type" l = Some (JStr "IRRIGATION_STATE") ->
  irrigationState (step h (EvMessage c (Text (JObj l))))
  = spread_stamp (assoc "data" l) (now h).
Proof.
  intros Hf Hk Ha Hr Ht. apply Nat.eqb_neq in Hr.
  unfold step; rewrite Hf, Hr, Hk; unfold run_handler.
  unfold on_message, irrigation_on_message, try_catch, bind, ret, gets, parse,
    get_auth.
  cbn -[irrigation_auth irrigation_dispatch]. rewrite Hf, Ha. cbn [negb].
  unfold irrigation_dispatch, bind, ret, gets, prop, set_irrigationState,
    modify.
  cbn -[broadcast_over is_str]. rewrite Ht. cbn -[broadcast_over is_str].
  io_simpl irrigationState; congruence.
Qed.

(** *** The registry of the irrigation class *)

Lemma esp32_keeps_irr_reg (c : nat) (d : frame) :
  pres esp32IrrigationSocket (esp32_on_message c d).
Proof. unfold esp32_on_message; pres_tac. Qed.

Lemma irrigation_dispatch_keeps_irr_reg (m : json) :
  pres esp32IrrigationSocket (irrigation_dispatch m).
Proof. pres_tac. Qed.

Lemma app_keeps_irr_reg (c : nat) (d : frame) :
  pres esp32IrrigationSocket (app_on_message c d).
Proof. unfold app_on_message; pres_tac. Qed.

(** A message registers its connection on [/esp32-irrigation] exactly when
    it authenticates it there. *)
Lemma irr_reg_after_message (h : hub) (c : nat) (d : frame) :
  esp32IrrigationSocket (step h (EvMessage c d))
  = if Registry.irrigation_auth_ok h c d then Some c
    else esp32IrrigationSocket h.
Proof.
  unfold step, Registry.irrigation_auth_ok.
  destruct (find_conn c (conns h)) as [k|] eqn:Hf; [|reflexivity].
  destruct (Nat.eqb (cready k) 3) eqn:Hr.
  { destruct d; [rewrite !andb_false_r, !andb_false_l|]; reflexivity. }
  unfold run_handler.
  destruct (ckind k) eqn:Hk; simpl Registry.is_irrigation; simpl andb.
  - destruct d; apply esp32_keeps_irr_reg.
  - destruct d as [m|]; [|reflexivity].
    unfold on_message, irrigation_on_message, try_catch, bind, ret, gets, parse,
      get_auth.
    cbn -[irrigation_auth irrigation_dispatch]. rewrite Hf.
    destruct (cauth k) eqn:Ha; cbn [negb andb].
    + rewrite ?andb_false_r. apply irrigation_dispatch_keeps_irr_reg.
    + unfold irrigation_auth. destruct m; try (cbn; reflexivity);
        unfold bind, ret, gets, prop, set_conn, set_esp32IrrigationSocket, modify;
        cbn -[send close is_str]; case_is_str; io_simpl esp32IrrigationSocket;
        congruence.
  - destruct d; apply app_keeps_irr_reg.
  - destruct d; reflexivity.
Qed.

Lemma irr_reg_after_close (h : hub) (c : nat) :
  esp32IrrigationSocket (step h (EvClose c))
  = if Registry.irrigation_close_clears h c then None
    else esp32IrrigationSocket h.
Proof.
  unfold step, Registry.irrigation_close_clears.
  destruct (find_conn c (conns h)) as [k|] eqn:Hf; [|reflexivity].
  destruct (Nat.eqb (cready k) 3) eqn:Hr.
  { rewrite andb_false_r, andb_false_l; reflexivity. }
  unfold run_handler.
  destruct (ckind k) eqn:Hk; cbn [Registry.is_irrigation negb andb].
  - unfold on_close, esp32_on_close, bind, gets, set_conn, modify,
      set_esp32Socket, set_robotsState, ret.
    cbn -[broadcast_over opt_is].
    destruct (opt_is (esp32Socket _) c); io_simpl esp32IrrigationSocket;
      congruence.
  - unfold on_close, irrigation_on_close, bind, gets, set_conn, modify,
      set_esp32IrrigationSocket, ret.
    cbn -[opt_is]. destruct (opt_is _ c); reflexivity.
  - reflexivity.
  - reflexivity.
Qed.

Lemma irr_reg_after_connect (h : hub) (c : nat) (url : string) :
  esp32IrrigationSocket (step h (EvConnect c url)) = esp32IrrigationSocket h.
Proof.
  unfold step. destruct (find_conn c (conns h)); [reflexivity|].
  unfold run_handler.
  generalize (endpoint_of_url url); intro e.
  assert (P : pres esp32IrrigationSocket (add_conn c e ;; on_connection c e)).
  { pres_tac. destruct e; simpl; [| | unfold app_on_connect|]; pres_tac. }
  apply P.
Qed.

(** The irrigation registration survives every event that neither
    authenticates a connection on [/esp32-irrigation] nor closes the
    registered connection. *)
Lemma irr_reg_stays (h : hub) (c : nat) (post : list event) :
  esp32IrrigationSocket h = Some c -> Registry.irrigation_quiet c h post ->
  esp32IrrigationSocket (run h post) = Some c.
Proof.
  revert h; induction post as [|ev post IH]; intros h Hreg Hq; simpl in *.
  - exact Hreg.
  - destruct Hq as (Hnr & Hnc & Hq). apply IH; [|exact Hq].
    destruct ev as [c' url|c' d|c'].
    + rewrite irr_reg_after_connect; exact Hreg.
    + rewrite irr_reg_after_message. simpl in Hnr. rewrite Hnr. exact Hreg.
    + rewrite irr_reg_after_close.
      unfold Registry.irrigation_close_clears.
      destruct (find_conn c' (conns h)); [|exact Hreg].
      rewrite Hreg. unfold opt_is.
      replace (Nat.eqb c c') with false
        by (symmetry; apply Nat.eqb_neq; intro E; subst; apply Hnc; reflexivity).
      rewrite andb_false_r; reflexivity.
Qed.

(** A successful irrigation authentication touches no other connection and
    closes nothing. *)
Lemma irr_auth_keeps_others (h : hub) (c p : nat) (d : frame) :
  Registry.irrigation_auth_ok h c d = true -> p <> c ->
  find_conn p (conns (step h (EvMessage c d))) = find_conn p (conns h)
  /\ closes (step h (EvMessage c d)) = closes h.
Proof.
  intros Hok Hpc. unfold Registry.irrigation_auth_ok in Hok.
  destruct (find_conn c (conns h)) as [k|] eqn:Hf; [|discriminate].
  destruct d as [m|]; [|discriminate].
  apply andb_prop in Hok as [Hok Hs]; apply andb_prop in Hok as [Hok Ht].
  apply andb_prop in Hok as [Hok Ha]; apply andb_prop in Hok as [Hk Hr].
  destruct m as [| | | | |l]; try discriminate. simpl jget in Ht, Hs.
  apply negb_true_iff in Ha, Hr.
  unfold step; rewrite Hf, Hr; unfold run_handler.
  destruct (ckind k); try discriminate.
  unfold on_message, irrigation_on_message, try_catch, bind, ret, gets, parse,
    get_auth.
  cbn -[irrigation_auth irrigation_dispatch]. rewrite Hf, Ha. cbn [negb].
  unfold irrigation_auth, bind, ret, gets, prop, set_conn,
    set_esp32IrrigationSocket, modify.
  cbn -[send close is_str]. rewrite Ht. cbn -[send close is_str].
  rewrite Hs. cbn -[send close is_str].
  io_simpl (fun h => (find_conn p (conns h), closes h));
  repeat match goal with H : (_, _) = (_, _) |- _ => injection H as ?H ?H end;
  rewrite find_conn_update_other in * by (auto; reflexivity);
  split; congruence.
Qed.

(** No handler of [index.js] writes to the history sink. *)
Lemma step_keeps_logs (h : hub) (ev : event) :
  irrigation_logs (step h ev) = irrigation_logs h.
Proof.
  assert (Hm : forall e c d, pres irrigation_logs (on_message e c d)).
  { intros e c d; destruct e; simpl;
      [unfold esp32_on_message | unfold irrigation_on_message
      | unfold app_on_message |]; pres_tac. }
  assert (Hc : forall e c, pres irrigation_logs (on_close e c)).
  { intros e c; destruct e; simpl;
      [unfold esp32_on_close | unfold irrigation_on_close | |]; pres_tac. }
  destruct ev as [c url|c d|c]; unfold step;
    destruct (find_conn c (conns h)) as [k|]; try reflexivity.
  - unfold run_handler.
    generalize (endpoint_of_url url); intro e.
    assert (P : pres irrigation_logs (add_conn c e ;; on_connection c e)).
    { pres_tac. destruct e; simpl; [| | unfold app_on_connect|]; pres_tac. }
    apply P.
  - destruct (Nat.eqb (cready k) 3); [reflexivity | apply Hm].
  - destruct (Nat.eqb (cready k) 3); [reflexivity|].
    unfold run_handler. apply pres_bind; [pres_tac | intro; apply Hc].
Qed.

Lemma run_keeps_logs (h : hub) (tr : list event) :
  irrigation_logs (run h tr) = irrigation_logs h.
Proof.
  revert h; induction tr as [|ev tr IH]; intro h; simpl; [reflexivity|].
  rewrite IH; apply step_keeps_logs.
Qed.

End Frame.

(** ** The claims *)

Module Claims.
Import Hub Frame Registry Samples.

(** C1 (amended). For each device class, shutters ([/esp32],
    [esp32Socket]) and irrigation ([/esp32-irrigation],
    [esp32IrrigationSocket]), the registry holds at most one connection
    identity, the connection that authenticated last on that class's
    endpoint (as long as that connection has not closed). Registering a new
    connection does not close the previously registered one: its record and
    the list of [close()] calls are untouched, and, still authenticated, it
    keeps replacing the class's state with its [STATE] (resp.
    [IRRIGATION_STATE]) messages. *)
Theorem C1_latest_auth_holds_no_eviction :
  ((forall (h : hub) (pre : list event) (c : nat) (d : frame)
      (post : list event),
      shutters_auth_ok (run h pre) c d = true ->
      quiet c (step (run h pre) (EvMessage c d)) post ->
      esp32Socket (run h (pre ++ EvMessage c d :: post)) = Some c)
   /\ (forall (h : hub) (c p : nat) (d : frame),
      shutters_auth_ok h c d = true -> esp32Socket h = Some p -> p <> c ->
      find_conn p (conns (step h (EvMessage c d))) = find_conn p (conns h)
      /\ closes (step h (EvMessage c d)) = closes h)
   /\ (forall (h : hub) (p : nat) (k : conn) (l : list (string * json)),
      find_conn p (conns h) = Some k -> ckind k = EShutters ->
      cauth k = true -> cready k <> 3 -> esp32Socket h <> Some p ->
      assoc "type" l = Some (JStr "STATE") ->
      shuttersState (step h (EvMessage p (Text (JObj l))))
      = spread_stamp (assoc "data" l) (now h)))
  /\ ((forall (h : hub) (pre : list event) (c : nat) (d : frame)
      (post : list event),
      irrigation_auth_ok (run h pre) c d = true ->
      irrigation_quiet c (step (run h pre) (EvMessage c d)) post ->
      esp32IrrigationSocket (run h (pre ++ EvMessage c d :: post)) = Some c)
   /\ (forall (h : hub) (c p : nat) (d : frame),
      irrigation_auth_ok h c d = true -> esp32IrrigationSocket h = Some p ->
      p <> c ->
      find_conn p (conns (step h (EvMessage c d))) = find_conn p (conns h)
      /\ closes (step h (EvMessage c d)) = closes h)
   /\ (forall (h : hub) (p : nat) (k : conn) (l : list (string * json)),
      find_conn p (conns h) = Some k -> ckind k = EIrrigation ->
      cauth k = true -> cready k <> 3 -> esp32IrrigationSocket h <> Some p ->
      assoc "type" l = Some (JStr "IRRIGATION_STATE") ->
      irrigationState (step h (EvMessage p (Text (JObj l))))
      = spread_stamp (assoc "data" l) (now h))).
Proof.
  split; (split; [|split]).
  - intros h pre c d post Hok Hq.
    rewrite run_app; cbn [run].
    apply reg_stays; [|exact Hq].
    rewrite reg_after_message, Hok; reflexivity.
  - intros h c p d Hok _ Hpc. apply auth_keeps_others; assumption.
  - intros h p k l Hf Hk Ha Hr _ Ht.
    apply (state_message_replaces h p k l); assumption.
  - intros h pre c d post Hok Hq.
    rewrite run_app; cbn [run].
    apply irr_reg_stays; [|exact Hq].
    rewrite irr_reg_after_message, Hok; reflexivity.
  - intros h c p d Hok _ Hpc. apply irr_auth_keeps_others; assumption.
  - intros h p k l Hf Hk Ha Hr _ Ht.
    apply (irrigation_message_replaces h p k l); assumption.
Qed.

Lemma C1_latest_auth_holds_no_eviction_witness :
  let pre := [EvConnect 1 "/esp32"; EvMessage 1 shutters_auth;
              EvConnect 2 "/esp32"] in
  let hA := run h0 (pre ++ [EvMessage 2 shutters_auth]) in
  let ipre := [EvConnect 3 "/esp32-irrigation"; EvMessage 3 irrigation_auth;
               EvConnect 4 "/esp32-irrigation"] in
  let hI := run h0 (ipre ++ [EvMessage 4 irrigation_auth]) in
  ((shutters_auth_ok (run h0 pre) 2 shutters_auth = true
    /\ quiet 2 (step (run h0 pre) (EvMessage 2 shutters_auth)) []
    /\ esp32Socket (run h0 (pre ++ [EvMessage 2 shutters_auth])) = Some 2)
   /\ (find_conn 1 (conns hA) = find_conn 1 (conns (run h0 pre))
       /\ closes hA = closes (run h0 pre))
   /\ shuttersState
        (step hA (EvMessage 1 (Text (JObj [("type", JStr "STATE");
                                           ("data", JNum 7)]))))
      = spread_stamp (Some (JNum 7)) (now hA))
  /\ ((irrigation_auth_ok (run h0 ipre) 4 irrigation_auth = true
    /\ irrigation_quiet 4 (step (run h0 ipre) (EvMessage 4 irrigation_auth)) []
    /\ esp32IrrigationSocket (run h0 (ipre ++ [EvMessage 4 irrigation_auth]))
       = Some 4)
   /\ (find_conn 3 (conns hI) = find_conn 3 (conns (run h0 ipre))
       /\ closes hI = closes (run h0 ipre))
   /\ irrigationState
        (step hI (EvMessage 3 (Text (JObj [("type", JStr "IRRIGATION_STATE");
                                           ("data", JNum 7)]))))
      = spread_stamp (Some (JNum 7)) (now hI)).
Proof.
  intros pre hA ipre hI.
  destruct C1_latest_auth_holds_no_eviction as ((P1 & P2 & P3) & (Q1 & Q2 & Q3)).
  split; (split; [|split]).
  - split; [vm_compute; reflexivity|].
    split; [exact I|].
    apply P1; [vm_compute; reflexivity | exact I].
  - unfold hA; rewrite run_app.
    apply (P2 (run h0 pre) 2 1 shutters_auth);
      [vm_compute; reflexivity | vm_compute; reflexivity | lia].
  - apply (P3 hA 1 (mkConn 1 EShutters 1 true));
      [vm_compute; reflexivity | reflexivity | reflexivity | cbn; lia
      | vm_compute; discriminate | reflexivity].
  - split; [vm_compute; reflexivity|].
    split; [exact I|].
    apply Q1; [vm_compute; reflexivity | exact I].
  - unfold hI; rewrite run_app.
    apply (Q2 (run h0 ipre) 4 3 irrigation_auth);
      [vm_compute; reflexivity | vm_compute; reflexivity | lia].
  - apply (Q3 hI 3 (mkConn 3 EIrrigation 1 true));
      [vm_compute; reflexivity | reflexivity | reflexivity | cbn; lia
      | vm_compute; discriminate | reflexivity].
Defined.

(** C1 fails as stated, on both device classes: after a second connection
    registers, the first is not closed and its [STATE] (resp.
    [IRRIGATION_STATE]) message still replaces the class's state. *)
Lemma C1_evicted_connection_not_closed :
  (let hA := run h0 [EvConnect 1 "/esp32"; EvMessage 1 shutters_auth;
                     EvConnect 2 "/esp32"; EvMessage 2 shutters_auth] in
   esp32Socket hA = Some 2 /\ ready_of hA 1 = 1 /\ ~ In 1 (closes hA)
   /\ shuttersState (step hA (EvMessage 1 (state_frame 50))) <> shuttersState hA)
  /\ (let hI := run h0 [EvConnect 1 "/esp32-irrigation"; EvMessage 1 irrigation_auth;
                        EvConnect 2 "/esp32-irrigation"; EvMessage 2 irrigation_auth] in
   esp32IrrigationSocket hI = Some 2 /\ ready_of hI 1 = 1 /\ ~ In 1 (closes hI)
   /\ irrigationState (step hI (EvMessage 1 (irrigation_frame true)))
      <> irrigationState hI).
Proof.
  vm_compute. split; (split; [reflexivity|]; split; [reflexivity|];
                      split; [intros []|discriminate]).
Qed.

(** C2 (amended). An irrigation full-state message from an authenticated
    irrigation connection replaces the irrigation state with the incoming
    data and a fresh timestamp, whatever the previous state (no comparison
    of the active flag); no event of the hub ever writes to the irrigation
    history, so no START row is logged for a transition. *)
Theorem C2_irrigation_state_replaced_nothing_logged :
  (forall (h : hub) (tr : list event),
     irrigation_logs (run h tr) = irrigation_logs h)
  /\ (forall (h : hub) (c : nat) (k : conn) (l : list (string * json)),
     find_conn c (conns h) = Some k -> ckind k = EIrrigation ->
     cauth k = true -> cready k <> 3 ->
     assoc "type" l = Some (JStr "IRRIGATION_STATE") ->
     irrigationState (step h (EvMessage c (Text (JObj l))))
     = spread_stamp (assoc "data" l) (now h)).
Proof.
  split.
  - apply run_keeps_logs.
  - apply irrigation_message_replaces.
Qed.

Lemma C2_irrigation_state_replaced_nothing_logged_witness :
  let h1 := run h0 [EvConnect 1 "/esp32-irrigation";
                    EvMessage 1 irrigation_auth] in
  irrigationState (step h1 (EvMessage 1 (Text (JObj
    [("type", JStr "IRRIGATION_STATE"); ("data", JNull)]))))
  = spread_stamp (Some JNull) (now h1).
Proof.
  intro h1.
  apply (proj2 C2_irrigation_state_replaced_nothing_logged h1 1
           (mkConn 1 EIrrigation 1 true));
    [vm_compute; reflexivity | reflexivity | reflexivity | cbn; lia | reflexivity].
Defined.

(** C2 fails as stated: a false-to-true transition followed by nine more
    [active:true] messages logs no START event at all. *)
Lemma C2_transition_logs_no_start :
  let h1 := run h0 [EvConnect 1 "/esp32-irrigation";
                    EvMessage 1 irrigation_auth] in
  let h2 := run h1 (repeat (EvMessage 1 (irrigation_frame true)) 10) in
  jget (irrigationState h1) "active" = Some (JBool false)
  /\ jget (irrigationState h2) "active" = Some (JBool true)
  /\ List.length (Database.start_rows (irrigation_logs h2)) = 0.
Proof. vm_compute. repeat split. Qed.

(** C3 (code defect, at a concrete input). When the registered
    irrigation connection closes, [esp32IrrigationSocket] is cleared but no
    broadcast is sent, while the sibling path of the shutters connection
    broadcasts exactly one [ROBOT_STATE_UPDATE] to the open controller. *)
Theorem C3_irrigation_close_no_broadcast :
  let hI := run h0 [EvConnect 1 "/esp32-irrigation";
                    EvMessage 1 irrigation_auth; EvConnect 2 "/app"] in
  let hS := run h0 [EvConnect 1 "/esp32"; EvMessage 1 shutters_auth;
                    EvConnect 2 "/app"] in
  esp32IrrigationSocket hI = Some 1
  /\ esp32IrrigationSocket (step hI (EvClose 1)) = None
  /\ sent (step hI (EvClose 1)) = sent hI
  /\ esp32Socket hS = Some 1
  /\ esp32Socket (step hS (EvClose 1)) = None
  /\ map fst (skipn (List.length (sent hS)) (sent (step hS (EvClose 1))))
     = [2].
Proof. vm_compute. repeat split. Qed.

(** C4 (code defect, at a concrete input). [broadcastToApps] only skips
    the current [esp32Socket]: the open irrigation device connection
    receives the shutters [STATE_UPDATE] broadcast next to the
    controller. *)
Theorem C4_broadcast_reaches_irrigation_device :
  let hB := run h0 [EvConnect 1 "/esp32-irrigation";
                    EvMessage 1 irrigation_auth; EvConnect 2 "/app";
                    EvConnect 3 "/esp32"; EvMessage 3 shutters_auth] in
  let hB' := step hB (EvMessage 3 (state_frame 50)) in
  esp32IrrigationSocket hB = Some 1
  /\ option_map ckind (find_conn 1 (conns hB)) = Some EIrrigation
  /\ map fst (skipn (List.length (sent hB)) (sent hB')) = [1; 2].
Proof. vm_compute. repeat split. Qed.

(** C5. A controller command with a valid token for a class without a
    live device: the plain [COMMAND] changes nothing and sends nothing,
    while [IRRIGATION_COMMAND] and [ROBOT_COMMAND] send exactly one failure
    payload, to the controller. *)
Theorem C5_command_without_live_device (h : hub) (c : nat) (k : conn)
  (l : list (string * json)) :
  find_conn c (conns h) = Some k -> ckind k = EApp -> cready k = 1 ->
  throws_on h c = false ->
  assoc "token" l = Some (JStr (APP_SECRET (cfg h))) ->
  (assoc "type" l = Some (JStr "COMMAND") -> esp32_live h = None ->
   step h (EvMessage c (Text (JObj l))) = h)
  /\ (assoc "type" l = Some (JStr "IRRIGATION_COMMAND") ->
      esp32_irrigation_live h = None ->
      step h (EvMessage c (Text (JObj l)))
      = with_io (conns h)
          (sent h ++ [(c, JObj [("type", JStr "IRRIGATION_RESPONSE");
                                ("success", JBool false);
                                ("error", JStr "Irrigation ESP32 not connected")])])
          (closes h) h)
  /\ (assoc "type" l = Some (JStr "ROBOT_COMMAND") -> esp32_live h = None ->
      step h (EvMessage c (Text (JObj l)))
      = with_io (conns h)
          (sent h ++ [(c, JObj [("type", JStr "ROBOT_RESPONSE");
                                ("success", JBool false);
                                ("error", JStr "ESP32 Roomba bridge not connected")])])
          (closes h) h).
Proof.
  intros Hf Hk Hr Hth Htok.
  assert (Hrd : ready_of h c = 1) by (unfold ready_of; rewrite Hf; exact Hr).
  unfold step; rewrite Hf, Hr, Hk; cbn [Nat.eqb]; unfold run_handler.
  unfold on_message, app_on_message, try_catch, bind, ret, gets, parse,
    is_command, prop, shutters_live, irrigation_live.
  split; [|split]; intros Ht Hl; cbn -[send esp32_live esp32_irrigation_live];
    rewrite Ht; cbn -[send esp32_live esp32_irrigation_live];
    rewrite Htok; cbn [is_str]; rewrite String.eqb_refl; cbn -[send esp32_live esp32_irrigation_live];
    rewrite Hl; cbn -[send esp32_live esp32_irrigation_live];
    try reflexivity;
    unfold send; rewrite Hrd, Hth; reflexivity.
Qed.

Lemma C5_command_without_live_device_witness :
  let h := run h0 [EvConnect 1 "/app"] in
  step h (EvMessage 1 (app_command "COMMAND")) = h.
Proof.
  intro h.
  apply (proj1 (C5_command_without_live_device h 1 (mkConn 1 EApp 1 false)
                  [("type", JStr "COMMAND"); ("token", JStr "your-app-secret-key");
                   ("action", JStr "OPEN"); ("channel", JNum 1)]
                  ltac:(vm_compute; reflexivity) eq_refl eq_refl
                  ltac:(vm_compute; reflexivity) ltac:(vm_compute; reflexivity)));
    vm_compute; reflexivity.
Defined.

(** C6. The close of a connection that is not the registered device of
    its class changes neither registry, nor any state, nor the delivered
    messages, nor any other connection. *)
Theorem C6_stale_close_is_noop (h : hub) (c : nat) :
  (forall k, find_conn c (conns h) = Some k -> registered_for h k = false) ->
  let h' := step h (EvClose c) in
  esp32Socket h' = esp32Socket h
  /\ esp32IrrigationSocket h' = esp32IrrigationSocket h
  /\ shuttersState h' = shuttersState h
  /\ irrigationState h' = irrigationState h
  /\ robotsState h' = robotsState h
  /\ sent h' = sent h
  /\ (forall b, b <> c -> find_conn b (conns h') = find_conn b (conns h)).
Proof.
  intros Hreg h'. unfold h', step.
  destruct (find_conn c (conns h)) as [k|] eqn:Hf;
    [|repeat split; reflexivity].
  destruct (Nat.eqb (cready k) 3); [repeat split; reflexivity|].
  specialize (Hreg k eq_refl). pose proof (find_conn_cid _ _ _ Hf) as Hc.
  unfold registered_for in Hreg; rewrite Hc in Hreg.
  unfold run_handler.
  destruct (ckind k);
    unfold on_close, esp32_on_close, irrigation_on_close, set_conn, bind,
      gets, modify, ret; cbn -[opt_is update_conn];
    try rewrite Hreg; cbn -[update_conn];
    (repeat split; [..|intros b Hb; apply find_conn_update_other;
                     [exact Hb | reflexivity]]).
Qed.

Lemma C6_stale_close_is_noop_witness :
  let hB := run h0 [EvConnect 1 "/esp32"; EvMessage 1 shutters_auth;
                    EvConnect 2 "/esp32"; EvMessage 2 shutters_auth] in
  esp32Socket (step hB (EvClose 1)) = Some 2
  /\ ready_of (step hB (EvClose 1)) 2 = 1.
Proof.
  intro hB.
  assert (H : forall k, find_conn 1 (conns hB) = Some k ->
                        registered_for hB k = false).
  { intros k Hk. vm_compute in Hk. injection Hk as <-. vm_compute.
    reflexivity. }
  destruct (C6_stale_close_is_noop hB 1 H) as (E1 & _ & _ & _ & _ & _ & E7).
  split.
  - rewrite E1. vm_compute. reflexivity.
  - unfold ready_of. rewrite (E7 2 ltac:(lia)). vm_compute. reflexivity.
Defined.

(** C7. [POST /api/command]: 401 for a wrong token, else 503 when the
    shutters device is not live, else 500 when the send throws, else
    [{success, command}] with the command delivered to the device. *)
Theorem C7_api_command_statuses (h : hub) (body : list (string * json)) :
  (is_str (assoc "token" body) (APP_SECRET (cfg h)) = false ->
   api_command body h = (Ok (401%Z, JObj [("error", JStr "Unauthorized")]), h))
  /\ (is_str (assoc "token" body) (APP_SECRET (cfg h)) = true ->
      esp32_live h = None ->
      api_command body h
      = (Ok (503%Z, JObj [("error", JStr "ESP32 not connected")]), h))
  /\ (forall s, is_str (assoc "token" body) (APP_SECRET (cfg h)) = true ->
      esp32_live h = Some s -> throws_on h s = true ->
      api_command body h
      = (Ok (500%Z, JObj [("error", JStr "Failed to send command")]), h))
  /\ (forall s, is_str (assoc "token" body) (APP_SECRET (cfg h)) = true ->
      esp32_live h = Some s -> throws_on h s = false ->
      api_command body h
      = (Ok (200%Z, JObj [("success", JBool true);
                          ("command", command_of body)]),
         with_io (conns h) (sent h ++ [(s, command_of body)]) (closes h) h)).
Proof.
  unfold api_command, bind, gets, ret, shutters_live, attempt.
  split; [|split; [|split]].
  - intro Ht; cbn -[is_str]; rewrite Ht; reflexivity.
  - intros Ht Hl; cbn -[is_str esp32_live]; rewrite Ht; cbn -[esp32_live].
    rewrite Hl; reflexivity.
  - intros s Ht Hl Hth; cbn -[is_str esp32_live send]; rewrite Ht;
    cbn -[esp32_live send]; rewrite Hl; cbn -[send].
    unfold send; rewrite (esp32_live_open h s Hl), Hth; reflexivity.
  - intros s Ht Hl Hth; cbn -[is_str esp32_live send]; rewrite Ht;
    cbn -[esp32_live send]; rewrite Hl; cbn -[send].
    unfold send; rewrite (esp32_live_open h s Hl), Hth; reflexivity.
Qed.

Lemma C7_api_command_statuses_witness :
  let h := run h0 [EvConnect 1 "/esp32"; EvMessage 1 shutters_auth] in
  let body := [("token", JStr "your-app-secret-key"); ("action", JStr "OPEN");
               ("channel", JNum 1)] in
  api_command body h
  = (Ok (200%Z, JObj [("success", JBool true); ("command", command_of body)]),
     with_io (conns h) (sent h ++ [(1, command_of body)]) (closes h) h).
Proof.
  intros h body.
  apply (proj2 (proj2 (proj2 (C7_api_command_statuses h body))) 1);
    vm_compute; reflexivity.
Defined.

(** C8 (code defect). An unparseable frame is discarded without any effect
    on every connection, but this also holds for the first frame of an
    unauthenticated [/esp32] connection: it stays open and unauthenticated,
    and a later [AUTH] still registers it, while a parseable non-[AUTH]
    first frame does close it. *)
Theorem C8_garbage_first_message_not_fatal :
  (forall (h : hub) (c : nat), step h (EvMessage c Garbage) = h)
  /\ (let hG := run h0 [EvConnect 1 "/esp32"; EvMessage 1 Garbage] in
      let hN := run h0 [EvConnect 1 "/esp32";
                        EvMessage 1 (Text (msg_type "HELLO"))] in
      ready_of hG 1 = 1 /\ closes hG = []
      /\ esp32Socket (step hG (EvMessage 1 shutters_auth)) = Some 1
      /\ closes hN = [1] /\ ready_of hN 1 = 2).
Proof.
  split.
  - intros h c; unfold step.
    destruct (find_conn c (conns h)) as [k|]; [|reflexivity].
    destruct (Nat.eqb (cready k) 3); [reflexivity|].
    destruct (ckind k); reflexivity.
  - vm_compute. repeat split.
Qed.

(** C9 (amended). The cached status of a known robot is computed from its
    cached record alone: connected false, battery 0 and phase
    ["disconnected"] when not connected; connected true, battery 0 and
    phase ["waiting"] when connected without a cached state; otherwise
    connected true with the cached battery, phase, cycle, bin, error and
    position, each with its default when absent or falsy. *)
Theorem C9_cached_status_cases (rs : list (string * Roomba.robot))
  (id ts : string) (r : Roomba.robot) :
  Roomba.map_get id rs = Some r ->
  (Roomba.connected r = false ->
   Roomba.getStatus rs id ts
   = Some (JObj [("robot", JStr id); ("name", JStr (Roomba.rname r));
                 ("type", JStr (Roomba.rtype r)); ("connected", JBool false);
                 ("battery", JNum 0); ("phase", JStr "disconnected");
                 ("error", JStr "Not connected to robot");
                 ("lastUpdate", JStr ts)]))
  /\ (Roomba.connected r = true -> truthy (Some (Roomba.lastState r)) = false ->
      Roomba.getStatus rs id ts
      = Some (JObj [("robot", JStr id); ("name", JStr (Roomba.rname r));
                    ("type", JStr (Roomba.rtype r)); ("connected", JBool true);
                    ("battery", JNum 0); ("phase", JStr "waiting");
                    ("error", JNull); ("lastUpdate", JStr ts)]))
  /\ (Roomba.connected r = true -> truthy (Some (Roomba.lastState r)) = true ->
      let st := Roomba.lastState r in
      let cms := jget st "cleanMissionStatus" in
      Roomba.getStatus rs id ts
      = Some (JObj [("robot", JStr id); ("name", JStr (Roomba.rname r));
                    ("type", JStr (Roomba.rtype r)); ("connected", JBool true);
                    ("battery", or_default (jget st "batPct") (JNum 0));
                    ("phase", or_default (jget_opt cms "phase") (JStr "unknown"));
                    ("cycle", or_default (jget_opt cms "cycle") (JStr "none"));
                    ("binFull", or_default (jget_opt (jget st "bin") "full")
                                  (JBool false));
                    ("error", or_default (jget_opt cms "error") JNull);
                    ("position", or_default (jget st "pose") JNull);
                    ("lastUpdate", JStr ts)])).
Proof.
  intro Hr; unfold Roomba.getStatus; rewrite Hr.
  split; [|split].
  - intro Hc; rewrite Hc; reflexivity.
  - intros Hc Hs; rewrite Hc, Hs; reflexivity.
  - intros Hc Hs; rewrite Hc, Hs; reflexivity.
Qed.

Lemma C9_cached_status_cases_witness :
  let rs := [("roomba_j7", Roomba.mkRobot "vacuum" "Roomba j7" true JNull)] in
  Roomba.getStatus rs "roomba_j7" "T"
  = Some (JObj [("robot", JStr "roomba_j7"); ("name", JStr "Roomba j7");
                ("type", JStr "vacuum"); ("connected", JBool true);
                ("battery", JNum 0); ("phase", JStr "waiting");
                ("error", JNull); ("lastUpdate", JStr "T")]).
Proof.
  intro rs.
  apply (proj1 (proj2 (C9_cached_status_cases rs "roomba_j7" "T"
                         (Roomba.mkRobot "vacuum" "Roomba j7" true JNull)
                         eq_refl)));
    reflexivity.
Defined.

(** C9 fails as stated: a connected robot without a cached state does not
    get a record with the connected flag false. *)
Lemma C9_connected_without_state_not_disconnected :
  ~ (forall (rs : list (string * Roomba.robot)) (id ts : string)
       (r : Roomba.robot),
       Roomba.map_get id rs = Some r ->
       Roomba.connected r = false \/ truthy (Some (Roomba.lastState r)) = false ->
       option_map (fun v => jget v "connected") (Roomba.getStatus rs id ts)
       = Some (Some (JBool false))).
Proof.
  intro H.
  specialize (H [("roomba_j7", Roomba.mkRobot "vacuum" "Roomba j7" true JNull)]
                "roomba_j7" "T" _ eq_refl (or_intror eq_refl)).
  vm_compute in H. discriminate H.
Qed.

(** C10. An upgrade on a path other than [/esp32], [/esp32-irrigation] and
    [/app] is closed at once: the registries, the states and the delivered
    messages are unchanged. *)
Theorem C10_unknown_path_closed (h : hub) (c : nat) (url : string) :
  find_conn c (conns h) = None -> endpoint_of_url url = ENone ->
  let h' := step h (EvConnect c url) in
  esp32Socket h' = esp32Socket h
  /\ esp32IrrigationSocket h' = esp32IrrigationSocket h
  /\ shuttersState h' = shuttersState h
  /\ irrigationState h' = irrigationState h
  /\ robotsState h' = robotsState h
  /\ sent h' = sent h
  /\ closes h' = (closes h ++ [c])%list
  /\ ready_of h' c = 2.
Proof.
  intros Hf Hu h'. unfold h', step. rewrite Hf, Hu.
  unfold run_handler, add_conn, on_connection, bind, modify, close, ready_of.
  cbn -[find_conn update_conn].
  rewrite find_conn_app_fresh by exact Hf. cbn [find_conn cid].
  rewrite Nat.eqb_refl. cbn [cready Nat.leb].
  rewrite find_conn_update_same by reflexivity.
  rewrite find_conn_app_fresh by exact Hf. cbn [find_conn cid].
  rewrite Nat.eqb_refl.
  repeat split; reflexivity.
Qed.

Lemma C10_unknown_path_closed_witness :
  let h' := step h0 (EvConnect 1 "/admin") in
  sent h' = [] /\ closes h' = [1] /\ esp32Socket h' = None.
Proof.
  intro h'.
  destruct (C10_unknown_path_closed h0 1 "/admin" eq_refl eq_refl)
    as (E1 & _ & _ & _ & _ & E6 & E7 & _).
  split; [|split].
  - exact E6.
  - exact E7.
  - exact E1.
Defined.

End Claims.

(** ** Further properties of the code *)

Module Extras.
Import Hub Frame Observe.

Lemma with_io_id (h : hub) : with_io (conns h) (sent h) (closes h) h = h.
Proof. destruct h; reflexivity. Qed.

Lemma with_io_io (a a' : list conn) (b b' : list (nat * json)) (c c' : list nat)
  (h : hub) : with_io a b c (with_io a' b' c' h) = with_io a b c h.
Proof. destruct h; reflexivity. Qed.

Lemma find_conn_nodup (l : list conn) (k : conn) :
  NoDup (map cid l) -> In k l -> find_conn (cid k) l = Some k.
Proof.
  induction l as [|k' l IH]; simpl; [tauto|].
  intros Hnd Hin; inversion Hnd as [|? ? Hnotin Hnd']; subst.
  destruct Hin as [<-|Hin].
  - rewrite Nat.eqb_refl; reflexivity.
  - destruct (Nat.eqb (cid k') (cid k)) eqn:E; [|apply IH; assumption].
    apply Nat.eqb_eq in E. exfalso; apply Hnotin; rewrite E; apply in_map; exact Hin.
Qed.

Lemma broadcast_over_spec (m : json) (l : list conn) :
  forall h,
  (forall k, In k l -> find_conn (cid k) (conns h) = Some k) ->
  (forall k, In k l -> cready k = 1 -> opt_is (esp32Socket h) (cid k) = false ->
             throws_on h (cid k) = false) ->
  broadcast_over l m h
  = (Ok tt, with_io (conns h)
              (sent h ++ deliveries
                 (filter (fun k => Nat.eqb (cready k) 1
                                   && negb (opt_is (esp32Socket h) (cid k))) l) m)
              (closes h) h).
Proof.
  induction l as [|k l IH]; intros h Hf Ht; simpl.
  - unfold ret; rewrite app_nil_r, with_io_id; reflexivity.
  - unfold bind, gets; cbn -[send].
    destruct (Nat.eqb (cready k) 1 && negb (opt_is (esp32Socket h) (cid k))) eqn:E.
    + apply andb_prop in E as [E1 E2]. apply Nat.eqb_eq in E1.
      apply negb_true_iff in E2.
      unfold send, ready_of. rewrite (Hf k (or_introl eq_refl)), E1.
      rewrite (Ht k (or_introl eq_refl) E1 E2).
      rewrite IH; cbn.
      * rewrite with_io_io, <- app_assoc; reflexivity.
      * intros k' Hk'; apply Hf; right; exact Hk'.
      * intros k' Hk'; apply Ht; right; exact Hk'.
    + unfold ret. rewrite IH.
      * reflexivity.
      * intros k' Hk'; apply Hf; right; exact Hk'.
      * intros k' Hk'; apply Ht; right; exact Hk'.
Qed.

(** The broadcast over the connections of [h], run from a hub [h1] that
    agrees with [h] on the connections, the registry and the failing sends. *)
Lemma broadcast_hub (m : json) (h h1 : hub) :
  conns h1 = conns h -> esp32Socket h1 = esp32Socket h ->
  send_throws h1 = send_throws h ->
  NoDup (map cid (conns h)) ->
  (forall k, In k (recipients h) -> throws_on h (cid k) = false) ->
  broadcast_over (conns h) m h1
  = (Ok tt, with_io (conns h1) (sent h1 ++ deliveries (recipients h) m)
              (closes h1) h1).
Proof.
  intros Hc Hs Hth Hnd Ht. rewrite broadcast_over_spec.
  - unfold recipients; rewrite Hs; reflexivity.
  - intros k Hk; rewrite Hc; apply find_conn_nodup; assumption.
  - intros k Hk E1 E2. unfold throws_on; rewrite Hth. apply Ht.
    unfold recipients; apply filter_In. rewrite Hs in E2.
    rewrite E1, E2; split; [exact Hk | reflexivity].
Qed.

(** X1. [broadcastToApps(m)] hands [m] to every connection of [wss.clients]
    that is OPEN and is not the registered shutters device, once each and
    in acceptance order, and changes nothing else (connection identities
    distinct, no recipient's [send] throwing). *)
Theorem X1_broadcast_reaches_open_clients (h : hub) (m : json) :
  NoDup (map cid (conns h)) ->
  (forall k, In k (recipients h) -> throws_on h (cid k) = false) ->
  broadcastToApps m h
  = (Ok tt, with_io (conns h) (sent h ++ deliveries (recipients h) m) (closes h) h).
Proof.
  intros Hnd Ht. unfold broadcastToApps, bind, gets. apply broadcast_hub; auto.
Qed.


Lemma prop_not_null (m : json) (key : string) :
  m <> JNull -> prop m key = ret (jget m key).
Proof. destruct m; [congruence | reflexivity..]. Qed.

(** X2. A [STATE] message on an authenticated [/esp32] connection commits
    [{...data, lastUpdate}] and hands the [STATE_UPDATE] carrying exactly
    that committed state to every broadcast recipient, and to no one else
    (connection identities distinct, no recipient's [send] throwing). *)
Theorem X2_state_update_carries_committed_state (h : hub) (p : nat) (k : conn)
  (l : list (string * json)) :
  NoDup (map cid (conns h)) ->
  (forall k', In k' (recipients h) -> throws_on h (cid k') = false) ->
  find_conn p (conns h) = Some k -> ckind k = EShutters -> cauth k = true ->
  cready k <> 3 -> assoc "type" l = Some (JStr "STATE") ->
  let h' := step h (EvMessage p (Text (JObj l))) in
  shuttersState h' = spread_stamp (assoc "data" l) (now h)
  /\ sent h' = (sent h ++ deliveries (recipients h)
                 (JObj [("type", JStr "STATE_UPDATE");
                        ("data", spread_stamp (assoc "data" l) (now h))]))%list
  /\ closes h' = closes h /\ conns h' = conns h.
Proof.
  intros Hnd Ht Hf Hk Ha Hr Hty h'. subst h'. apply Nat.eqb_neq in Hr.
  unfold step; rewrite Hf, Hr, Hk; unfold run_handler.
  unfold on_message, esp32_on_message, try_catch, bind, ret, gets, parse,
    get_auth.
  cbn -[esp32_auth esp32_dispatch]. rewrite Hf, Ha. cbn [negb].
  unfold esp32_dispatch, bind, ret, gets, prop, set_shuttersState, modify.
  cbn -[broadcast_over is_str]. rewrite Hty. cbn -[broadcast_over].
  rewrite broadcast_hub by (cbn; auto). cbn.
  repeat split; reflexivity.
Qed.


Lemma esp32_auth_eq (c : nat) (m : json) (h : hub) :
  m <> JNull ->
  esp32_auth c m h
  = (if is_str (jget m "type") "AUTH"
        && is_str (jget m "secret") (ESP32_SECRET (cfg h))
     then (set_conn c (with_auth true) ;; set_esp32Socket (Some c) ;;
           send c (msg_type "AUTH_OK") ;; send c (msg_type "REQUEST_STATE")) h
     else (send c (msg_type "AUTH_FAILED") ;; close c) h).
Proof.
  intros Hm. unfold esp32_auth; rewrite !prop_not_null by exact Hm.
  cbv beta delta [bind ret gets] iota.
  destruct (is_str (jget m "type") "AUTH"), (is_str (jget m "secret") _);
    reflexivity.
Qed.

Lemma irrigation_auth_eq (c : nat) (m : json) (h : hub) :
  m <> JNull ->
  irrigation_auth c m h
  = (if is_str (jget m "type") "AUTH"
        && is_str (jget m "secret") (ESP32_IRRIGATION_SECRET (cfg h))
     then (set_conn c (with_auth true) ;; set_esp32IrrigationSocket (Some c) ;;
           send c (msg_type "AUTH_OK") ;; send c (msg_type "REQUEST_STATE")) h
     else (send c (msg_type "AUTH_FAILED") ;; close c) h).
Proof.
  intros Hm. unfold irrigation_auth; rewrite !prop_not_null by exact Hm.
  cbv beta delta [bind ret gets] iota.
  destruct (is_str (jget m "type") "AUTH"), (is_str (jget m "secret") _);
    reflexivity.
Qed.

(** A message on a live, unauthenticated device connection runs the
    authentication branch of its handler. *)
Lemma device_unauth_step (h : hub) (c : nat) (k : conn) (m : json) :
  find_conn c (conns h) = Some k -> cauth k = false -> cready k <> 3 ->
  step h (EvMessage c (Text m))
  = match ckind k with
    | EShutters => snd (esp32_auth c m h)
    | EIrrigation => snd (irrigation_auth c m h)
    | EApp => snd (app_on_message c (Text m) h)
    | ENone => h
    end.
Proof.
  intros Hf Ha Hr. apply Nat.eqb_neq in Hr.
  unfold step; rewrite Hf, Hr; unfold run_handler, on_message.
  destruct (ckind k); try reflexivity;
    [unfold esp32_on_message | unfold irrigation_on_message];
    unfold try_catch, bind at 1, parse, ret at 1, get_auth, gets, bind at 1;
    cbn -[esp32_auth irrigation_auth]; rewrite Hf, Ha; reflexivity.
Qed.

Lemma ready_of_conn (h : hub) (c : nat) (k : conn) :
  find_conn c (conns h) = Some k -> ready_of h c = cready k.
Proof. unfold ready_of; intros ->; reflexivity. Qed.

Lemma send_open (h : hub) (c : nat) (k : conn) (m : json) :
  find_conn c (conns h) = Some k -> cready k = 1 -> throws_on h c = false ->
  send c m h = (Ok tt, with_io (conns h) (sent h ++ [(c, m)]) (closes h) h).
Proof.
  intros Hf Hr Ht. unfold send. rewrite (ready_of_conn h c k Hf), Hr, Ht.
  reflexivity.
Qed.

(** X3. On an open, not yet authenticated device connection ([/esp32] or
    [/esp32-irrigation]) whose [send] does not throw, a first frame that
    parses as JSON, is not [null], and is not an [AUTH] carrying the
    class's secret is answered [AUTH_FAILED] and the connection is closed
    (CLOSING): nothing else changes, no registry, no state. (An
    unparseable or [null] frame throws before this branch and is only
    logged.) *)
Theorem X3_failed_auth_rejected_and_closed (h : hub) (c : nat) (k : conn)
  (m : json) :
  find_conn c (conns h) = Some k ->
  ckind k = EShutters \/ ckind k = EIrrigation ->
  cauth k = false -> cready k = 1 -> throws_on h c = false -> m <> JNull ->
  is_str (jget m "type") "AUTH"
  && is_str (jget m "secret") (device_secret (cfg h) (ckind k)) = false ->
  step h (EvMessage c (Text m))
  = with_io (update_conn c (with_ready 2) (conns h))
      (sent h ++ [(c, msg_type "AUTH_FAILED")]) (closes h ++ [c]) h.
Proof.
  intros Hf Hk Ha Hr Ht Hm Hs.
  rewrite (device_unauth_step h c k m Hf Ha) by (rewrite Hr; discriminate).
  destruct Hk as [Hk|Hk]; rewrite Hk in *; cbn [device_secret] in Hs;
    [rewrite esp32_auth_eq by exact Hm | rewrite irrigation_auth_eq by exact Hm];
    rewrite Hs; unfold bind; rewrite (send_open h c k _ Hf Hr Ht);
    unfold close, ready_of; cbn -[update_conn]; rewrite Hf, Hr;
    cbn -[update_conn]; rewrite with_io_io; reflexivity.
Qed.

(** X4. A first message [AUTH] with the class's secret on a device
    connection marks it authenticated, registers it for its class, and is
    answered [AUTH_OK] then [REQUEST_STATE], in that order; it closes
    nothing and leaves the cached states alone. *)
Theorem X4_auth_acknowledged_then_state_requested (h : hub) (c : nat)
  (k : conn) (m : json) :
  find_conn c (conns h) = Some k ->
  ckind k = EShutters \/ ckind k = EIrrigation ->
  cauth k = false -> cready k = 1 -> throws_on h c = false ->
  is_str (jget m "type") "AUTH" = true ->
  is_str (jget m "secret") (device_secret (cfg h) (ckind k)) = true ->
  let h' := step h (EvMessage c (Text m)) in
  sent h' = (sent h ++ [(c, msg_type "AUTH_OK"); (c, msg_type "REQUEST_STATE")])%list
  /\ closes h' = closes h
  /\ conns h' = update_conn c (with_auth true) (conns h)
  /\ (if Registry.is_shutters (ckind k) then esp32Socket h' = Some c
      else esp32IrrigationSocket h' = Some c)
  /\ cached h' = cached h.
Proof.
  intros Hf Hk Ha Hr Ht Hty Hs h'; subst h'.
  assert (Hm : m <> JNull) by (intros ->; discriminate).
  assert (Hf' : find_conn c (update_conn c (with_auth true) (conns h))
                = Some (with_auth true k))
    by (rewrite find_conn_update_same, Hf by reflexivity; reflexivity).
  rewrite (device_unauth_step h c k m Hf Ha) by (rewrite Hr; discriminate).
  destruct Hk as [Hk|Hk]; rewrite Hk in *; cbn [device_secret] in Hs;
    [rewrite esp32_auth_eq by exact Hm | rewrite irrigation_auth_eq by exact Hm];
    rewrite Hty, Hs; cbn [andb];
    unfold bind, set_conn, set_esp32Socket, set_esp32IrrigationSocket, modify;
    rewrite (send_open _ c (with_auth true k)) by (cbn; auto);
    rewrite (send_open _ c (with_auth true k)) by (cbn; auto);
    cbn -[update_conn]; rewrite <- app_assoc;
    repeat split; reflexivity.
Qed.


Lemma json_eq_null (m : json) : {m = JNull} + {m <> JNull}.
Proof. destruct m; [left; reflexivity | right; discriminate..]. Defined.

Lemma is_command_false (m : json) (ty : string) (h : hub) :
  m <> JNull -> is_str (jget m "token") (APP_SECRET (cfg h)) = false ->
  is_command m ty h = (Ok false, h).
Proof.
  intros Hm Ht. unfold is_command; rewrite !prop_not_null by exact Hm.
  cbv beta delta [bind ret gets] iota.
  destruct (is_str (jget m "type") ty); [rewrite Ht|]; reflexivity.
Qed.

(** X5. A message on a [/app] connection whose [token] is not the app
    secret has no effect at all, whatever its type and fields: nothing is
    sent, closed or changed. *)
Theorem X5_app_message_without_token_ignored (h : hub) (c : nat) (k : conn)
  (m : json) :
  find_conn c (conns h) = Some k -> ckind k = EApp ->
  is_str (jget m "token") (APP_SECRET (cfg h)) = false ->
  step h (EvMessage c (Text m)) = h.
Proof.
  intros Hf Hk Ht. unfold step; rewrite Hf, Hk.
  destruct (Nat.eqb (cready k) 3); [reflexivity|].
  unfold run_handler, on_message, app_on_message, try_catch.
  destruct (json_eq_null m) as [->|Hm]; [reflexivity|].
  unfold bind; cbn [parse ret].
  rewrite is_command_false by assumption; cbn -[is_command].
  rewrite is_command_false by assumption; cbn -[is_command].
  rewrite is_command_false by assumption; reflexivity.
Qed.

Lemma garbage_step (h : hub) (c : nat) : step h (EvMessage c Garbage) = h.
Proof.
  unfold step; destruct (find_conn c (conns h)) as [k|]; [|reflexivity].
  destruct (Nat.eqb (cready k) 3); [reflexivity|].
  destruct (ckind k); reflexivity.
Qed.

Lemma esp32_auth_keeps_cached (c : nat) (m : json) : pres cached (esp32_auth c m).
Proof. pres_tac. Qed.

Lemma irrigation_auth_keeps_cached (c : nat) (m : json) :
  pres cached (irrigation_auth c m).
Proof. pres_tac. Qed.

Lemma app_keeps_cached (c : nat) (d : frame) : pres cached (app_on_message c d).
Proof. unfold app_on_message; pres_tac. Qed.

(** X6. Only an authenticated device connection changes the cached
    states: a message on a connection that has not authenticated (every
    [/app] connection among them) leaves the shutters, irrigation and
    robots states as they were. *)
Theorem X6_unauthenticated_cannot_write_state (h : hub) (c : nat) (k : conn)
  (d : frame) :
  find_conn c (conns h) = Some k -> cauth k = false ->
  cached (step h (EvMessage c d)) = cached h.
Proof.
  intros Hf Ha. destruct d as [m|]; [|rewrite garbage_step; reflexivity].
  destruct (Nat.eq_dec (cready k) 3) as [Hr|Hr].
  { unfold step; rewrite Hf, Hr; reflexivity. }
  rewrite (device_unauth_step h c k m Hf Ha Hr).
  destruct (ckind k);
    [apply esp32_auth_keeps_cached | apply irrigation_auth_keeps_cached
    | apply app_keeps_cached | reflexivity].
Qed.

(** X7. A new [/app] connection is sent, at once and as its first message,
    a [STATE_UPDATE] carrying the current shutters state; nothing else
    happens. *)
Theorem X7_app_connect_gets_snapshot (h : hub) (c : nat) :
  find_conn c (conns h) = None -> throws_on h c = false ->
  step h (EvConnect c "/app")
  = with_io (conns h ++ [mkConn c EApp 1 false])
      (sent h ++ [(c, JObj [("type", JStr "STATE_UPDATE");
                            ("data", shuttersState h)])]) (closes h) h.
Proof.
  intros Hf Ht. unfold step; rewrite Hf.
  change (endpoint_of_url "/app") with EApp.
  unfold run_handler, add_conn, on_connection, app_on_connect, bind, modify,
    gets.
  rewrite (send_open _ c (mkConn c EApp 1 false)).
  - cbn; rewrite with_io_io; reflexivity.
  - cbn. rewrite find_conn_app_fresh by exact Hf. cbn; rewrite Nat.eqb_refl;
    reflexivity.
  - reflexivity.
  - exact Ht.
Qed.

Lemma map_cid_update (c : nat) (g : conn -> conn) (l : list conn) :
  (forall k, cid (g k) = cid k) -> map cid (update_conn c g l) = map cid l.
Proof.
  intros Hg; induction l as [|k l IH]; simpl; [reflexivity|].
  rewrite IH; destruct (Nat.eqb (cid k) c); [rewrite Hg|]; reflexivity.
Qed.

(** Closing the registered connection and clearing the registry leaves
    the broadcast recipients as they were. *)
Lemma recipients_after_close (c : nat) (l : list conn) :
  filter (fun k => Nat.eqb (cready k) 1 && negb (opt_is None (cid k)))
    (update_conn c (with_ready 3) l)
  = filter (fun k => Nat.eqb (cready k) 1 && negb (opt_is (Some c) (cid k))) l.
Proof.
  induction l as [|k l IH]; [reflexivity|].
  change (update_conn c (with_ready 3) (k :: l))
    with ((if Nat.eqb (cid k) c then with_ready 3 k else k)
          :: update_conn c (with_ready 3) l).
  destruct (Nat.eqb (cid k) c) eqn:E; cbn [filter]; rewrite IH.
  - apply Nat.eqb_eq in E. cbn [opt_is with_ready cready cid].
    rewrite E, Nat.eqb_refl, andb_false_r. reflexivity.
  - cbn [opt_is]. rewrite (Nat.eqb_sym c (cid k)), E. reflexivity.
Qed.

Lemma assoc_set_field_same (k : string) (v : json) (l : list (string * json)) :
  assoc k (set_field k v l) = Some v.
Proof.
  induction l as [|[k' v'] l IH]; cbn; [rewrite String.eqb_refl; reflexivity|].
  destruct (String.eqb k k') eqn:E; cbn; [rewrite String.eqb_refl | rewrite E];
    [reflexivity | exact IH].
Qed.

Lemma assoc_set_field_other (k k' : string) (v : json) (l : list (string * json)) :
  k' <> k -> assoc k' (set_field k v l) = assoc k' l.
Proof.
  intros Hne. apply String.eqb_neq in Hne.
  induction l as [|[k0 v0] l IH]; cbn; [rewrite Hne; reflexivity|].
  destruct (String.eqb k k0) eqn:E; cbn.
  - apply String.eqb_eq in E; subst k0. rewrite Hne; reflexivity.
  - destruct (String.eqb k' k0); [reflexivity | exact IH].
Qed.

Lemma mark_disconnected_entries (rs : json) (id : string)
  (l : list (string * json)) :
  jget (mark_disconnected rs) id = Some (JObj l) ->
  assoc "connected" l = Some (JBool false).
Proof.
  destruct rs as [| | | | |l0]; cbn; try discriminate.
  induction l0 as [|[k v] l0 IH]; cbn; [discriminate|].
  destruct (String.eqb id k); [|exact IH].
  destruct v; cbn; try discriminate.
  intro H; injection H as <-. apply assoc_set_field_same.
Qed.

(** X8. The transport close of the registered [/esp32] connection clears
    the registry, marks every robot entry that is an object
    [connected: false], and broadcasts that robots state, in a
    [ROBOT_STATE_UPDATE], to exactly the connections that were broadcast
    recipients before the close (identities distinct, no recipient's
    [send] throwing). *)
Theorem X8_shutters_close_marks_robots_disconnected (h : hub) (c : nat)
  (k : conn) :
  NoDup (map cid (conns h)) ->
  (forall k', In k' (recipients h) -> throws_on h (cid k') = false) ->
  find_conn c (conns h) = Some k -> ckind k = EShutters -> cready k <> 3 ->
  esp32Socket h = Some c ->
  let h' := step h (EvClose c) in
  esp32Socket h' = None
  /\ robotsState h' = mark_disconnected (robotsState h)
  /\ (forall id l, jget (robotsState h') id = Some (JObj l) ->
                   assoc "connected" l = Some (JBool false))
  /\ sent h' = (sent h ++ deliveries (recipients h)
                 (JObj [("type", JStr "ROBOT_STATE_UPDATE");
                        ("data", mark_disconnected (robotsState h))]))%list.
Proof.
  intros Hnd Ht Hf Hk Hr Hs h'.
  assert (Hrs : robotsState h' = mark_disconnected (robotsState h)).
  { subst h'. apply Nat.eqb_neq in Hr.
    unfold step; rewrite Hf, Hr, Hk; unfold run_handler.
    unfold on_close, esp32_on_close, bind, gets, set_conn, modify,
      set_esp32Socket, set_robotsState, ret.
    cbn -[broadcast_over]. rewrite Hs; cbn -[broadcast_over].
    rewrite Nat.eqb_refl. io_simpl robotsState; congruence. }
  split; [|split; [exact Hrs | split]].
  - subst h'. rewrite reg_after_close. unfold Registry.shutters_close_clears.
    rewrite Hf, Hk, Hs. apply Nat.eqb_neq in Hr. rewrite Hr. cbn.
    rewrite Nat.eqb_refl; reflexivity.
  - intros id l; rewrite Hrs; apply mark_disconnected_entries.
  - subst h'. apply Nat.eqb_neq in Hr.
    unfold step; rewrite Hf, Hr, Hk; unfold run_handler.
    unfold on_close, esp32_on_close, bind, gets, set_conn, modify,
      set_esp32Socket, set_robotsState, ret.
    cbn -[broadcast_over update_conn]. rewrite Hs; cbn -[broadcast_over update_conn].
    rewrite Nat.eqb_refl.
    assert (Hrec : recipients h
                   = filter (fun k => Nat.eqb (cready k) 1
                                      && negb (opt_is None (cid k)))
                       (update_conn c (with_ready 3) (conns h))).
    { unfold recipients; rewrite Hs, recipients_after_close; reflexivity. }
    rewrite broadcast_over_spec.
    + rewrite Hrec. reflexivity.
    + intros k' Hk'. cbn -[update_conn]. apply find_conn_nodup; [|exact Hk'].
      rewrite map_cid_update by reflexivity; exact Hnd.
    + intros k' Hk' E1 E2. cbn in E2. unfold throws_on; cbn -[update_conn].
      fold (throws_on h (cid k')). apply Ht. rewrite Hrec. apply filter_In.
      split; [exact Hk' | rewrite E1; reflexivity].
Qed.


Lemma robot_state_replaces (h : hub) (p : nat) (k : conn)
  (l : list (string * json)) :
  find_conn p (conns h) = Some k -> ckind k = EShutters -> cauth k = true ->
  cready k <> 3 -> assoc "type" l = Some (JStr "ROBOT_STATE") ->
  robotsState (step h (EvMessage p (Text (JObj l))))
  = spread_stamp (assoc "data" l) (now h).
Proof.
  intros Hf Hk Ha Hr Ht. apply Nat.eqb_neq in Hr.
  unfold step; rewrite Hf, Hr, Hk; unfold run_handler.
  unfold on_message, esp32_on_message, try_catch, bind, ret, gets, parse,
    get_auth.
  cbn -[esp32_auth esp32_dispatch]. rewrite Hf, Ha. cbn [negb].
  unfold esp32_dispatch, bind, ret, gets, prop, set_robotsState, modify.
  cbn -[broadcast_over is_str]. rewrite Ht. cbn -[broadcast_over].
  io_simpl robotsState; congruence.
Qed.

(** X9. A [ROBOT_STATE] message on an authenticated [/esp32] connection
    replaces the whole robots map by [{...data, lastUpdate}]: afterwards
    [GET /api/robots/lastUpdate] answers 200 with the timestamp, as if it
    were a robot, and a robot the data leaves out is answered 404. *)
Theorem X9_robot_state_replaces_whole_map (h : hub) (p : nat) (k : conn)
  (l : list (string * json)) (robotId : string) :
  find_conn p (conns h) = Some k -> ckind k = EShutters -> cauth k = true ->
  cready k <> 3 -> assoc "type" l = Some (JStr "ROBOT_STATE") ->
  now h <> "" ->
  robotId <> "lastUpdate" -> assoc robotId (own_fields (assoc "data" l)) = None ->
  existsb (String.eqb robotId) Http.object_prototype_keys = false ->
  let h' := step h (EvMessage p (Text (JObj l))) in
  Http.api_robot "lastUpdate" h' = (200%Z, Some (JStr (now h)))
  /\ Http.api_robot robotId h'
     = (404%Z, Some (JObj [("error", JStr "Robot not found")])).
Proof.
  intros Hf Hk Ha Hr Ht Hnow Hid Habs Hproto h'. subst h'.
  unfold Http.api_robot, Http.member.
  rewrite (robot_state_replaces h p k l Hf Hk Ha Hr Ht). unfold spread_stamp, jget.
  assert (Hnp : String.eqb robotId "__proto__" = false).
  { destruct (String.eqb_spec robotId "__proto__") as [->|]; [|reflexivity].
    discriminate Hproto. }
  rewrite assoc_set_field_same, assoc_set_field_other, Habs, Hnp, Hproto
    by exact Hid.
  cbn [truthy]. apply String.eqb_neq in Hnow. rewrite Hnow. split; reflexivity.
Qed.

Lemma command_503 (h : hub) (body : list (string * json)) :
  is_str (assoc "token" body) (APP_SECRET (cfg h)) = true ->
  option_map fst (Http.answer (api_command body) h) = Some 503%Z
  <-> esp32_live h = None.
Proof.
  intros Htok.
  unfold Http.answer, api_command, shutters_live, bind, gets, ret, attempt.
  simpl. rewrite Htok. simpl.
  destruct (esp32_live h) as [s|]; [|simpl; tauto].
  destruct (send s _ h) as [[[]|] h1]; simpl; split; congruence.
Qed.

Lemma schedules_503 (h : hub) :
  option_map fst (Http.answer Http.api_schedules h) = Some 503%Z
  <-> esp32_live h = None.
Proof.
  unfold Http.answer, Http.api_schedules, Http.express, shutters_live, bind,
    gets, ret.
  simpl. destruct (esp32_live h) as [s|]; [|simpl; tauto].
  destruct (send s _ h) as [[[]|] h1]; simpl; split; congruence.
Qed.

Lemma robot_command_503 (h : hub) (body : list (string * json))
  (robotId : string) :
  is_str (assoc "token" body) (APP_SECRET (cfg h)) = true ->
  Http.member_truthy (robotsState h) robotId = true ->
  option_map fst (Http.answer (Http.api_robot_command robotId body) h)
  = Some 503%Z
  <-> esp32_live h = None.
Proof.
  intros Htok Hknown.
  unfold Http.answer, Http.api_robot_command, Http.express, shutters_live,
    bind, gets, ret.
  simpl. rewrite Htok. simpl. rewrite Hknown. simpl.
  destruct (esp32_live h) as [s|]; [|simpl; tauto].
  destruct (send s _ h) as [[[]|] h1]; simpl; split; congruence.
Qed.

Lemma health_flag (h : hub) :
  jget (snd (Http.health h)) "esp32Connected" = Some (JBool false)
  <-> esp32_live h = None.
Proof.
  assert (Hflag : jget (snd (Http.health h)) "esp32Connected"
                  = Some (JBool (match esp32Socket h with
                                 | Some s => Nat.eqb (ready_of h s) 1
                                 | None => false
                                 end))).
  { unfold Http.health, obj; cbn [snd obj_fields].
    destruct (jget (shuttersState h) "lastUpdate"); reflexivity. }
  rewrite Hflag. unfold esp32_live.
  destruct (esp32Socket h) as [s|]; [|split; reflexivity].
  destruct (Nat.eqb (ready_of h s) 1); split; congruence.
Qed.

(** X10. [GET /health] reports [esp32Connected: false] exactly when the
    three routes that need the shutters device, [POST /api/command],
    [GET /api/schedules] and [POST /api/robots/:id/command] (authorised,
    for a known robot), all answer 503. *)
Theorem X10_health_agrees_with_503 (h : hub) (body : list (string * json))
  (robotId : string) :
  is_str (assoc "token" body) (APP_SECRET (cfg h)) = true ->
  Http.member_truthy (robotsState h) robotId = true ->
  jget (snd (Http.health h)) "esp32Connected" = Some (JBool false)
  <-> (option_map fst (Http.answer (api_command body) h) = Some 503%Z
       /\ option_map fst (Http.answer Http.api_schedules h) = Some 503%Z
       /\ option_map fst (Http.answer (Http.api_robot_command robotId body) h)
          = Some 503%Z).
Proof.
  intros Htok Hknown.
  rewrite health_flag, command_503, schedules_503, robot_command_503 by assumption.
  tauto.
Qed.


(** The [ROBOT_FORWARD_COMMAND] message of [POST /api/robots/:id/command]. *)
Lemma send_live (h : hub) (s : nat) (m : json) :
  esp32_live h = Some s ->
  send s m h = if throws_on h s then (Thrown, h)
               else (Ok tt, with_io (conns h) (sent h ++ [(s, m)]) (closes h) h).
Proof.
  intros Hl. unfold send. rewrite (esp32_live_open h s Hl). reflexivity.
Qed.

(** X11. [POST /api/robots/:id/command] changes the hub in one way only:
    when it answers 200, the [ROBOT_FORWARD_COMMAND] with the path's robot
    id and the body's [command] has been handed to the live shutters
    device; every other answer (401, 404, 503, or Express's 500 when that
    send throws) leaves the hub as it was. *)
Theorem X11_robot_command_route_forwards_or_nothing (h : hub) (robotId : string)
  (body : list (string * json)) :
  let (o, h') := Http.api_robot_command robotId body h in
  (o = Ok (200%Z, JObj [("success", JBool true);
                        ("message", JStr "Command forwarded to ESP32 bridge")])
   /\ exists s, esp32_live h = Some s
       /\ h' = with_io (conns h)
                 (sent h ++ [(s, obj [("type", Some (JStr "ROBOT_FORWARD_COMMAND"));
                                      ("robotId", Some (JStr robotId));
                                      ("command", assoc "command" body)])])
                 (closes h) h)
  \/ (h' = h /\ exists r, o = Ok r /\ fst r <> 200%Z).
Proof.
  unfold Http.api_robot_command, Http.express, shutters_live, bind, gets, ret.
  simpl.
  destruct (is_str (assoc "token" body) (APP_SECRET (cfg h))); simpl;
    [| right; split; [reflexivity | eexists; split; [reflexivity | discriminate]]].
  destruct (Http.member_truthy (robotsState h) robotId); simpl;
    [| right; split; [reflexivity | eexists; split; [reflexivity | discriminate]]].
  destruct (esp32_live h) as [s|] eqn:Hl; simpl;
    [| right; split; [reflexivity | eexists; split; [reflexivity | discriminate]]].
  rewrite (send_live h s _ Hl).
  destruct (throws_on h s); simpl.
  - right; split; [reflexivity | eexists; split; [reflexivity | discriminate]].
  - left; split; [reflexivity | exists s; split; reflexivity].
Qed.

(** X12. [GET /api/schedules] has no [try]: when the live device's [send]
    throws, Express's error handler answers 500; otherwise a live device
    is sent exactly one [GET_SCHEDULES] and the answer is 200, and without
    a live device it is 503 with nothing sent. *)
Theorem X12_schedules_route (h : hub) :
  Http.api_schedules h
  = match esp32_live h with
    | None => (Ok (503%Z, JObj [("error", JStr "ESP32 not connected")]), h)
    | Some s =>
        if throws_on h s then (Ok (500%Z, JStr "Internal Server Error"), h)
        else (Ok (200%Z, JObj [("message", JStr "Schedules request sent to ESP32")]),
              with_io (conns h) (sent h ++ [(s, msg_type "GET_SCHEDULES")])
                (closes h) h)
    end.
Proof.
  unfold Http.api_schedules, Http.express, shutters_live, bind, gets, ret.
  simpl. destruct (esp32_live h) as [s|] eqn:Hl; [|reflexivity].
  rewrite (send_live h s _ Hl). destruct (throws_on h s); reflexivity.
Qed.

(** X13. A robot id that names a member of [Object.prototype] (such as
    [toString] or [__proto__]) and is no own key of the robots state is
    treated as a known robot: [GET /api/robots/:id] answers 200, with an
    empty body for a method (a function) and with [{}] for [__proto__]
    ([Object.prototype]); and, with the app token and a live device whose
    [send] does not throw, [POST /api/robots/:id/command] forwards the
    command for it and answers 200. *)
Theorem X13_prototype_ids_pass_as_robots (h : hub) (robotId : string)
  (body : list (string * json)) (s : nat) :
  In robotId Http.object_prototype_keys -> jget (robotsState h) robotId = None ->
  is_str (assoc "token" body) (APP_SECRET (cfg h)) = true ->
  esp32_live h = Some s -> throws_on h s = false ->
  Http.api_robot robotId h
  = (200%Z, if String.eqb robotId "__proto__" then Some (JObj []) else None)
  /\ Http.api_robot_command robotId body h
     = (Ok (200%Z, JObj [("success", JBool true);
                         ("message", JStr "Command forwarded to ESP32 bridge")]),
        with_io (conns h)
          (sent h ++ [(s, obj [("type", Some (JStr "ROBOT_FORWARD_COMMAND"));
                               ("robotId", Some (JStr robotId));
                               ("command", assoc "command" body)])])
          (closes h) h).
Proof.
  intros Hin Hown Htok Hl Ht.
  assert (Hk : Http.member_truthy (robotsState h) robotId = true).
  { unfold Http.member_truthy, Http.member; rewrite Hown.
    destruct (String.eqb robotId "__proto__"); [reflexivity|].
    replace (existsb (String.eqb robotId) Http.object_prototype_keys) with true;
      [reflexivity|].
    symmetry; apply existsb_exists; exists robotId; split;
      [exact Hin | apply String.eqb_refl]. }
  split.
  - unfold Http.api_robot, Http.member; rewrite Hown.
    destruct (String.eqb robotId "__proto__"); [reflexivity|].
    replace (existsb (String.eqb robotId) Http.object_prototype_keys) with true;
      [reflexivity|].
    symmetry; apply existsb_exists; exists robotId; split;
      [exact Hin | apply String.eqb_refl].
  - unfold Http.api_robot_command, Http.express, shutters_live, bind, gets, ret.
    simpl. rewrite Htok. simpl. rewrite Hk. simpl.
    rewrite Hl. rewrite (send_live h s _ Hl), Ht. reflexivity.
Qed.

(** *** [RoombaController] *)

Section Controller.
Import Roomba RoombaCtl.

Lemma map_get_set_same (id : string) (r : robot) (m : list (string * robot)) :
  map_get id (map_set id r m) = Some r.
Proof.
  induction m as [|[k r'] m IH]; cbn; [rewrite String.eqb_refl; reflexivity|].
  destruct (String.eqb k id) eqn:E; cbn; rewrite E; [reflexivity | exact IH].
Qed.

Lemma map_get_set_other (id id' : string) (r : robot) (m : list (string * robot)) :
  id' <> id -> map_get id' (map_set id r m) = map_get id' m.
Proof.
  intros Hne. induction m as [|[k r'] m IH]; cbn.
  - replace (String.eqb id id') with false; [reflexivity|].
    symmetry; apply String.eqb_neq; congruence.
  - destruct (String.eqb k id) eqn:E; cbn.
    + apply String.eqb_eq in E; subst k.
      replace (String.eqb id id') with false; [reflexivity|].
      symmetry; apply String.eqb_neq; congruence.
    + destruct (String.eqb k id'); [reflexivity | exact IH].
Qed.

Lemma map_get_set (k id : string) (r : robot) (m : list (string * robot)) :
  map_get id (map_set k r m) = if String.eqb k id then Some r else map_get id m.
Proof.
  destruct (String.eqb_spec k id) as [<-|Hne];
    [apply map_get_set_same | apply map_get_set_other; congruence].
Qed.

(** X15. The constructor registers exactly the robots whose config entry
    has a truthy [ip], [blid] and [password] and whose client could be
    created, [roomba_j7] (a vacuum) before [braava_jet] (a mop); each
    starts disconnected with no cached state. *)
Theorem X15_initialize_registers_configured_robots (config : json)
  (client_ok : string -> bool) :
  config <> JNull ->
  exists m, initializeRobots config client_ok = Some m
  /\ map fst m = filter (fun id => has_credentials config id && client_ok id)
                   ["roomba_j7"; "braava_jet"]
  /\ (forall id r, map_get id m = Some r ->
        connected r = false /\ lastState r = JNull
        /\ ((id = "roomba_j7" /\ rtype r = "vacuum")
            \/ (id = "braava_jet" /\ rtype r = "mop"))).
Proof.
  intros Hc.
  assert (Hi : initializeRobots config client_ok
    = Some (let m1 := if has_credentials config "roomba_j7"
                      then _initRobot "roomba_j7" "vacuum" "Roomba j7" client_ok []
                      else [] in
            if has_credentials config "braava_jet"
            then _initRobot "braava_jet" "mop" "Braava Jet" client_ok m1
            else m1)).
  { destruct config; [congruence | reflexivity..]. }
  rewrite Hi. eexists; split; [reflexivity|]. cbn zeta. cbn [filter].
  unfold _initRobot. split.
  - destruct (has_credentials config "roomba_j7"), (client_ok "roomba_j7"),
      (has_credentials config "braava_jet"), (client_ok "braava_jet");
      reflexivity.
  - intros id r H.
    destruct (has_credentials config "roomba_j7"), (client_ok "roomba_j7"),
      (has_credentials config "braava_jet"), (client_ok "braava_jet");
      rewrite ?map_get_set in H; cbn [map_get andb] in H;
      repeat match goal with
             | H : (if String.eqb ?a id then _ else _) = _ |- _ =>
                 destruct (String.eqb_spec a id); [subst id|]
             end;
      try discriminate; injection H as <-; cbn; auto 6.
Qed.

(** X16. An [error], [close] or [offline] event of a robot's client makes
    its status report it disconnected (battery 0, phase [disconnected],
    error [Not connected to robot]) whatever its cached state, which the
    event keeps. *)
Theorem X16_drop_reports_disconnected (m : list (string * robot)) (id : string)
  (r : robot) (ev : client_event) (ts : string) :
  map_get id m = Some r -> ev = CError \/ ev = CClose \/ ev = COffline ->
  map_get id (on_client_event id ev m)
  = Some (mkRobot (rtype r) (rname r) false (lastState r))
  /\ getStatus (on_client_event id ev m) id ts
     = Some (JObj [("robot", JStr id); ("name", JStr (rname r));
                   ("type", JStr (rtype r)); ("connected", JBool false);
                   ("battery", JNum 0); ("phase", JStr "disconnected");
                   ("error", JStr "Not connected to robot");
                   ("lastUpdate", JStr ts)]).
Proof.
  intros Hg Hev.
  assert (E : map_get id (on_client_event id ev m)
              = Some (mkRobot (rtype r) (rname r) false (lastState r))).
  { unfold on_client_event; rewrite Hg.
    destruct Hev as [->|[->| ->]]; apply map_get_set_same. }
  split; [exact E|]. unfold getStatus; rewrite E; reflexivity.
Qed.

(** X17. The cached state outlives a drop: after an [error], [close] or
    [offline] event and then a [connect] event, with no [state] event in
    between, the status is the one a fresh [state] event carrying the
    pre-drop cache would give (its battery, phase, ...). *)
Theorem X17_reconnect_reports_stale_state (m : list (string * robot))
  (id : string) (r : robot) (ev : client_event) (ts : string) :
  map_get id m = Some r -> ev = CError \/ ev = CClose \/ ev = COffline ->
  getStatus (on_client_event id CConnect (on_client_event id ev m)) id ts
  = getStatus (on_client_event id (CState (lastState r)) m) id ts.
Proof.
  intros Hg Hev.
  assert (E : map_get id (on_client_event id ev m)
              = Some (mkRobot (rtype r) (rname r) false (lastState r))).
  { unfold on_client_event; rewrite Hg.
    destruct Hev as [->|[->| ->]]; apply map_get_set_same. }
  unfold getStatus, on_client_event at 1. rewrite E. cbn [rtype rname lastState].
  rewrite map_get_set_same. unfold on_client_event. rewrite Hg.
  rewrite map_get_set_same. reflexivity.
Qed.

Lemma assoc_fold_status (m : list (string * robot)) (ts id : string)
  (st : string -> json) (l : list (string * robot)) :
  forall acc,
  assoc id (fold_left (fun acc kv => set_field (fst kv) (st (fst kv)) acc) l acc)
  = if existsb (String.eqb id) (map fst l) then Some (st id) else assoc id acc.
Proof.
  induction l as [|[k r] l IH]; intro acc; cbn; [reflexivity|].
  rewrite IH. destruct (existsb (String.eqb id) (map fst l)) eqn:E;
    [rewrite orb_true_r; reflexivity|].
  rewrite orb_false_r. destruct (String.eqb id k) eqn:Ek.
  - apply String.eqb_eq in Ek; subst k. apply assoc_set_field_same.
  - apply assoc_set_field_other. apply String.eqb_neq in Ek; congruence.
Qed.

Lemma map_get_keys (id : string) (m : list (string * robot)) :
  existsb (String.eqb id) (map fst m) = true <-> exists r, map_get id m = Some r.
Proof.
  induction m as [|[k r] m IH]; cbn.
  - split; [discriminate | intros [r H]; discriminate].
  - rewrite String.eqb_sym. destruct (String.eqb k id); cbn.
    + split; [eauto | reflexivity].
    + exact IH.
Qed.

(** X18. [getAllStatus()] never takes its [catch] branch: its entry for
    each robot is exactly [getStatus] of that robot, and it has no entry
    for an id that is not a robot. *)
Theorem X18_all_status_is_status (m : list (string * robot)) (ts id : string) :
  jget (getAllStatus m ts) id = getStatus m id ts.
Proof.
  unfold getAllStatus, jget.
  rewrite (assoc_fold_status m ts id
             (fun robotId => match getStatus m robotId ts with
                             | Some s => s
                             | None => JObj [("robot", JStr robotId);
                                             ("connected", JBool false);
                                             ("error", JStr (not_found robotId))]
                             end) m []).
  destruct (existsb (String.eqb id) (map fst m)) eqn:E.
  - apply map_get_keys in E as [r Hr].
    assert (Hs : exists s, getStatus m id ts = Some s).
    { unfold getStatus; rewrite Hr.
      destruct (negb (connected r) || negb (truthy (Some (lastState r)))); eauto. }
    destruct Hs as [s Hs]; rewrite Hs; reflexivity.
  - unfold getStatus. destruct (map_get id m) eqn:Hg; [|reflexivity].
    exfalso. assert (H : exists r, map_get id m = Some r) by eauto.
    apply map_get_keys in H; congruence.
Qed.

(** X19. [getRobotList()] has one entry per robot, in map order, and the
    [connected] flag it lists for a robot is the one [getStatus] reports. *)
Theorem X19_robot_list_agrees_with_status (m : list (string * robot))
  (id : string) (r : robot) (ts : string) :
  map_get id m = Some r ->
  (exists l, getRobotList m = JArr l /\ List.length l = List.length m)
  /\ In (JObj [("id", JStr id); ("name", JStr (rname r)); ("type", JStr (rtype r));
               ("connected", JBool (connected r))])
       (match getRobotList m with JArr l => l | _ => [] end)
  /\ option_map (fun s => jget s "connected") (getStatus m id ts)
     = Some (Some (JBool (connected r))).
Proof.
  intros Hg. split; [|split].
  - eexists; split; [reflexivity | apply length_map].
  - cbn [getRobotList]. apply in_map_iff. exists (id, r); split; [reflexivity|].
    clear ts. induction m as [|[k r'] m IH]; cbn in Hg; [discriminate|].
    destruct (String.eqb k id) eqn:E.
    + apply String.eqb_eq in E; subst k; injection Hg as <-; left; reflexivity.
    + right; exact (IH Hg).
  - unfold getStatus; rewrite Hg.
    destruct (negb (connected r) || negb (truthy (Some (lastState r)))) eqn:E;
      cbn; [reflexivity|].
    apply orb_false_iff in E as [E _]. apply negb_false_iff in E.
    rewrite E; reflexivity.
Qed.

(** X23. [cleanRoom] on a vacuum whose cached state has no [pmaps] (no
    [state] event received yet among them) still calls the client's
    [cleanRoom], with an empty [pmap_id]. *)
Theorem X23_clean_room_without_map_id (c : ctl) (id : string) (r : robot)
  (room : json) :
  map_get id (robots c) = Some r -> rtype r = "vacuum" ->
  jget (lastState r) "pmaps" = None ->
  vendor_calls (snd (cleanRoom id room None c))
  = (vendor_calls c
     ++ [(id, "cleanRoom",
          JObj [("ordered", JNum 1); ("pmap_id", JStr "");
                ("regions", JArr [JObj [("region_id", room);
                                        ("type", JStr "rid")]])])])%list.
Proof.
  intros Hg Ht Hp. unfold cleanRoom, _getConnectedRobot; rewrite Hg, Ht.
  change (negb (String.eqb "vacuum" "vacuum")) with false. cbv iota.
  unfold map_id. destruct (lastState r); cbn in Hp |- *; try reflexivity.
  rewrite Hp; reflexivity.
Qed.

End Controller.


Section Polling.
Import Roomba RoombaCtl.

Lemma remove_single (i : nat) : remove Nat.eq_dec i [i] = [].
Proof. cbn. destruct (Nat.eq_dec i i); [reflexivity | congruence]. Qed.

Lemma ctl_step_inv (c : ctl) (x : ctl_call) :
  timers c = match pollingInterval c with Some i => [i] | None => [] end ->
  timers (ctl_step c x)
  = match pollingInterval (ctl_step c x) with Some i => [i] | None => [] end
  /\ robots (ctl_step c x) = robots c /\ vendor_calls (ctl_step c x) = vendor_calls c.
Proof.
  intros Hinv. destruct c as [rs p ts n em vc ck]; cbn in Hinv.
  destruct x as [| |i]; cbn -[remove].
  - destruct p as [i|]; subst ts; cbn -[remove]; [rewrite remove_single|]; auto.
  - destruct p as [i|]; subst ts; cbn -[remove]; [rewrite remove_single|]; auto.
  - unfold tick; cbn. destruct (existsb (Nat.eqb i) ts); cbn; auto.
Qed.

(** X24. Along any sequence of [startPolling], [stopPolling] and timer
    firings, at most one polling interval is live, the one
    [this.pollingInterval] holds: a restart clears the previous interval
    before setting a new one. Polling never changes the robots and calls
    no client. *)
Theorem X24_at_most_one_polling_interval (c : ctl) (xs : list ctl_call) :
  timers c = match pollingInterval c with Some i => [i] | None => [] end ->
  timers (ctl_run c xs)
  = match pollingInterval (ctl_run c xs) with Some i => [i] | None => [] end
  /\ robots (ctl_run c xs) = robots c
  /\ vendor_calls (ctl_run c xs) = vendor_calls c.
Proof.
  unfold ctl_run. revert c; induction xs as [|x xs IH]; intros c Hinv; cbn.
  - auto.
  - destruct (ctl_step_inv c x Hinv) as (H1 & H2 & H3).
    destruct (IH (ctl_step c x) H1) as (H4 & H5 & H6).
    rewrite H5, H6, H2, H3. auto.
Qed.

(** X25. [disconnect()] stops polling (no live interval is left) and marks
    disconnected every robot whose [client.end()] returns; a robot whose
    [end()] throws keeps its record, [connected] flag included. *)
Theorem X25_disconnect_stops_and_disconnects (end_throws : string -> bool)
  (c : ctl) :
  timers c = match pollingInterval c with Some i => [i] | None => [] end ->
  let c' := disconnect end_throws c in
  pollingInterval c' = None /\ timers c' = []
  /\ (forall id r, In (id, r) (robots c') -> end_throws id = false ->
                   connected r = false)
  /\ (forall id r, In (id, r) (robots c) -> end_throws id = true ->
                   In (id, r) (robots c')).
Proof.
  intros Hinv c'. subst c'.
  assert (Hs : robots (stopPolling c) = robots c /\ pollingInterval (stopPolling c) = None
               /\ timers (stopPolling c) = []).
  { destruct c as [rs p ts n em vc ck]; cbn in Hinv |- *.
    destruct p as [i|]; subst ts; cbn -[remove]; [rewrite remove_single|]; auto. }
  destruct Hs as (Hr & Hp & Ht).
  unfold disconnect; cbn [robots pollingInterval timers]. rewrite Hr, Hp, Ht.
  split; [reflexivity | split; [reflexivity | split]].
  - intros id r Hin He. apply in_map_iff in Hin as [[id' r'] [E Hin]].
    cbn in E. destruct (end_throws id') eqn:E'.
    + injection E as <- <-; congruence.
    + injection E as <- <-; reflexivity.
  - intros id r Hin He. apply in_map_iff. exists (id, r); split; [|exact Hin].
    cbn; rewrite He; reflexivity.
Qed.

End Polling.

(** *** [DatabaseService] *)

Section Service.
Import DatabaseSvc.

Lemma db_step_enabled (s : service) (x : db_call) :
  enabled (db_step s x) = enabled s || enables x.
Proof.
  destruct x as [url key ok|a d w ts ok|r a st d ok]; cbn.
  - unfold initialize. destruct (present url), (present key), ok; cbn;
      rewrite ?orb_true_r, ?orb_false_r; reflexivity.
  - unfold logIrrigation. destruct (enabled s) eqn:E, ok; cbn; rewrite ?E; reflexivity.
  - unfold logRobotMission. destruct (enabled s) eqn:E, ok; cbn; rewrite ?E; reflexivity.
Qed.

(** X26. The service is enabled after a sequence of calls exactly when it
    was already, or one [initialize] got a non-empty url and key and
    [createClient] returned: a later [initialize] with missing
    credentials does not disable it. *)
Theorem X26_enabled_iff_initialized (s : service) (xs : list db_call) :
  enabled (db_run s xs) = enabled s || existsb enables xs.
Proof.
  unfold db_run. revert s; induction xs as [|x xs IH]; intro s; cbn.
  - rewrite orb_false_r; reflexivity.
  - rewrite IH, db_step_enabled, orb_assoc; reflexivity.
Qed.

Lemma db_step_disabled (s : service) (x : db_call) :
  enabled s = false -> enables x = false -> db_step s x = s.
Proof.
  intros He Hx. destruct x as [url key ok|a d w ts ok|r a st d ok]; cbn in *.
  - unfold initialize. destruct (present url && present key); [|reflexivity].
    cbn in Hx. rewrite Hx; reflexivity.
  - unfold logIrrigation; rewrite He; reflexivity.
  - unfold logRobotMission; rewrite He; reflexivity.
Qed.

(** X27. Without a successful [initialize] the database service does
    nothing at all: whatever is logged, both tables stay empty and every
    history query answers []. *)
Theorem X27_disabled_service_writes_nothing (xs : list db_call)
  (answer : option (list json)) :
  existsb enables xs = false ->
  db_run service0 xs = service0 /\ getHistory answer (db_run service0 xs) = [].
Proof.
  intros He.
  assert (H : forall s, enabled s = false -> db_run s xs = s).
  { unfold db_run. induction xs as [|x xs IH]; intros s Hs; [reflexivity|].
    cbn in He |- *. apply orb_false_iff in He as [H1 H2].
    rewrite db_step_disabled by assumption. apply IH; assumption. }
  rewrite H by reflexivity. split; reflexivity.
Qed.

Lemma db_step_appends (s : service) (x : db_call) :
  exists l1 l2,
  irrigation_table (db_step s x) = (irrigation_table s ++ l1)%list
  /\ robot_table (db_step s x) = (robot_table s ++ l2)%list
  /\ List.length l1 <= (if is_irrigation_log x then 1 else 0)
  /\ List.length l2 <= (if is_robot_log x then 1 else 0).
Proof.
  destruct x as [url key ok|a d w ts ok|r a st d ok]; cbn.
  - exists [], []; rewrite !app_nil_r.
    unfold initialize; destruct (present url && present key), ok; cbn; auto.
  - unfold logIrrigation; destruct (enabled s), ok; cbn;
      [eexists; exists []; split; [reflexivity | split; [symmetry; apply app_nil_r | cbn; lia]]
      | exists [], []; rewrite !app_nil_r; cbn; auto ..].
  - unfold logRobotMission; destruct (enabled s), ok; cbn;
      [exists []; eexists; split; [symmetry; apply app_nil_r | split; [reflexivity | cbn; lia]]
      | exists [], []; rewrite !app_nil_r; cbn; auto ..].
Qed.

(** X28. The tables are append-only: a run of calls keeps every row
    already written, and adds to the irrigation table at most one row per
    [logIrrigation] call and to the robot table at most one per
    [logRobotMission] call. *)
Theorem X28_tables_append_only (s : service) (xs : list db_call) :
  exists l1 l2,
  irrigation_table (db_run s xs) = (irrigation_table s ++ l1)%list
  /\ robot_table (db_run s xs) = (robot_table s ++ l2)%list
  /\ List.length l1 <= List.length (filter is_irrigation_log xs)
  /\ List.length l2 <= List.length (filter is_robot_log xs).
Proof.
  unfold db_run. revert s; induction xs as [|x xs IH]; intro s; cbn.
  - exists [], []; rewrite !app_nil_r; auto.
  - destruct (db_step_appends s x) as (k1 & k2 & F1 & F2 & K1 & K2).
    destruct (IH (db_step s x)) as (l1 & l2 & E1 & E2 & L1 & L2).
    exists (k1 ++ l1)%list, (k2 ++ l2)%list.
    rewrite E1, E2, F1, F2, <- !app_assoc; split; [reflexivity|split; [reflexivity|]].
    rewrite !length_app.
    destruct (is_irrigation_log x), (is_robot_log x); cbn; lia.
Qed.

End Service.


(** *** Witnesses: the hypotheses of the properties above, met by sample
    configurations of the relay, the controller and the service *)

Ltac disj_tac := first [left; reflexivity | right; disj_tac | reflexivity].

Ltac wit_tac :=
  solve [ reflexivity
        | discriminate
        | let Hd := fresh in intro Hd; vm_compute in Hd; discriminate Hd
        | vm_compute; repeat constructor; cbn; intuition discriminate
        | intros; reflexivity
        | simpl; disj_tac ].

Section RelayWitnesses.
Import Scenarios.

Lemma X1_broadcast_witness :
  broadcastToApps (msg_type "PING") hA
  = (Ok tt, with_io (conns hA) (sent hA ++ deliveries (recipients hA) (msg_type "PING"))
                    (closes hA) hA).
Proof. apply X1_broadcast_reaches_open_clients; wit_tac. Defined.

Lemma X2_state_update_witness :
  let l := [("type", JStr "STATE"); ("data", JObj [("s1", JNum 5)])] in
  let h' := step hA (EvMessage 1 (Text (JObj l))) in
  shuttersState h' = spread_stamp (assoc "data" l) (now hA)
  /\ sent h' = (sent hA ++ deliveries (recipients hA)
                 (JObj [("type", JStr "STATE_UPDATE");
                        ("data", spread_stamp (assoc "data" l) (now hA))]))%list
  /\ closes h' = closes hA /\ conns h' = conns hA.
Proof.
  intro l.
  apply (X2_state_update_carries_committed_state hA 1 (mkConn 1 EShutters 1 true) l);
    wit_tac.
Defined.

Lemma X3_failed_auth_witness :
  step hB (EvMessage 1 (Text (JObj [("type", JStr "AUTH"); ("secret", JStr "wrong")])))
  = with_io (update_conn 1 (with_ready 2) (conns hB))
      (sent hB ++ [(1, msg_type "AUTH_FAILED")]) (closes hB ++ [1]) hB.
Proof.
  apply (X3_failed_auth_rejected_and_closed hB 1 (mkConn 1 EShutters 1 false));
    wit_tac.
Defined.

Lemma X4_auth_ok_witness :
  let k := mkConn 1 EShutters 1 false in
  let h' := step hB (EvMessage 1 (Text (JObj [("type", JStr "AUTH");
                                              ("secret", JStr "your-esp32-secret-key")]))) in
  sent h' = (sent hB ++ [(1, msg_type "AUTH_OK"); (1, msg_type "REQUEST_STATE")])%list
  /\ closes h' = closes hB
  /\ conns h' = update_conn 1 (with_auth true) (conns hB)
  /\ (if Registry.is_shutters (ckind k) then esp32Socket h' = Some 1
      else esp32IrrigationSocket h' = Some 1)
  /\ cached h' = cached hB.
Proof.
  intro k.
  apply (X4_auth_acknowledged_then_state_requested hB 1 k); wit_tac.
Defined.

Lemma X5_app_without_token_witness :
  step hA (EvMessage 2 (Text (JObj [("type", JStr "COMMAND")]))) = hA.
Proof.
  apply (X5_app_message_without_token_ignored hA 2 (mkConn 2 EApp 1 false)); wit_tac.
Defined.

Lemma X6_unauthenticated_witness :
  cached (step hB (EvMessage 1 (Samples.state_frame 5))) = cached hB.
Proof.
  apply (X6_unauthenticated_cannot_write_state hB 1 (mkConn 1 EShutters 1 false));
    wit_tac.
Defined.

Lemma X7_app_connect_witness :
  step hA (EvConnect 4 "/app")
  = with_io (conns hA ++ [mkConn 4 EApp 1 false])
      (sent hA ++ [(4, JObj [("type", JStr "STATE_UPDATE");
                             ("data", shuttersState hA)])]) (closes hA) hA.
Proof. apply X7_app_connect_gets_snapshot; wit_tac. Defined.

Lemma X8_shutters_close_witness :
  let h' := step hA (EvClose 1) in
  esp32Socket h' = None
  /\ robotsState h' = mark_disconnected (robotsState hA)
  /\ (forall id l, jget (robotsState h') id = Some (JObj l) ->
                   assoc "connected" l = Some (JBool false))
  /\ sent h' = (sent hA ++ deliveries (recipients hA)
                 (JObj [("type", JStr "ROBOT_STATE_UPDATE");
                        ("data", mark_disconnected (robotsState hA))]))%list.
Proof.
  apply (X8_shutters_close_marks_robots_disconnected hA 1 (mkConn 1 EShutters 1 true));
    wit_tac.
Defined.

Lemma X9_robot_state_witness :
  let l := [("type", JStr "ROBOT_STATE"); ("data", JObj [("roomba_j7", robot0)])] in
  let h' := step hA (EvMessage 1 (Text (JObj l))) in
  Http.api_robot "lastUpdate" h' = (200%Z, Some (JStr (now hA)))
  /\ Http.api_robot "braava_jet" h'
     = (404%Z, Some (JObj [("error", JStr "Robot not found")])).
Proof.
  intro l.
  apply (X9_robot_state_replaces_whole_map hA 1 (mkConn 1 EShutters 1 true) l
           "braava_jet"); wit_tac.
Defined.

Lemma X10_health_witness :
  let body := [("token", JStr "your-app-secret-key")] in
  jget (snd (Http.health hB)) "esp32Connected" = Some (JBool false)
  <-> (option_map fst (Http.answer (api_command body) hB) = Some 503%Z
       /\ option_map fst (Http.answer Http.api_schedules hB) = Some 503%Z
       /\ option_map fst (Http.answer (Http.api_robot_command "roomba_j7" body) hB)
          = Some 503%Z).
Proof. intro body. apply X10_health_agrees_with_503; wit_tac. Defined.

Lemma X13_prototype_ids_witness :
  let body := [("token", JStr "your-app-secret-key"); ("command", JStr "start")] in
  Http.api_robot "__proto__" hA
  = (200%Z, if String.eqb "__proto__" "__proto__" then Some (JObj []) else None)
  /\ Http.api_robot_command "__proto__" body hA
     = (Ok (200%Z, JObj [("success", JBool true);
                         ("message", JStr "Command forwarded to ESP32 bridge")]),
        with_io (conns hA)
          (sent hA ++ [(1, obj [("type", Some (JStr "ROBOT_FORWARD_COMMAND"));
                                ("robotId", Some (JStr "__proto__"));
                                ("command", assoc "command" body)])])
          (closes hA) hA).
Proof. intro body. apply X13_prototype_ids_pass_as_robots; wit_tac. Defined.

End RelayWitnesses.

Section ControllerWitnesses.
Import Roomba RoombaCtl Scenarios.

Lemma X15_initialize_witness :
  exists m, initializeRobots robots_config (fun _ => true) = Some m
  /\ map fst m = filter (fun id => has_credentials robots_config id && true)
                   ["roomba_j7"; "braava_jet"]
  /\ (forall id r, map_get id m = Some r ->
        connected r = false /\ lastState r = JNull
        /\ ((id = "roomba_j7" /\ rtype r = "vacuum")
            \/ (id = "braava_jet" /\ rtype r = "mop"))).
Proof. apply X15_initialize_registers_configured_robots; wit_tac. Defined.

Lemma X16_drop_witness :
  map_get "roomba_j7" (on_client_event "roomba_j7" CClose fleet)
  = Some (mkRobot (rtype vacuum) (rname vacuum) false (lastState vacuum))
  /\ getStatus (on_client_event "roomba_j7" CClose fleet) "roomba_j7" "T"
     = Some (JObj [("robot", JStr "roomba_j7"); ("name", JStr (rname vacuum));
                   ("type", JStr (rtype vacuum)); ("connected", JBool false);
                   ("battery", JNum 0); ("phase", JStr "disconnected");
                   ("error", JStr "Not connected to robot");
                   ("lastUpdate", JStr "T")]).
Proof. apply X16_drop_reports_disconnected; wit_tac. Defined.

Lemma X17_reconnect_witness :
  getStatus (on_client_event "braava_jet" CConnect
               (on_client_event "braava_jet" COffline fleet)) "braava_jet" "T"
  = getStatus (on_client_event "braava_jet" (CState (lastState mop)) fleet)
      "braava_jet" "T".
Proof. apply X17_reconnect_reports_stale_state; wit_tac. Defined.

Lemma X19_robot_list_witness :
  (exists l, getRobotList fleet = JArr l /\ List.length l = List.length fleet)
  /\ In (JObj [("id", JStr "braava_jet"); ("name", JStr (rname mop));
               ("type", JStr (rtype mop)); ("connected", JBool (connected mop))])
       (match getRobotList fleet with JArr l => l | _ => [] end)
  /\ option_map (fun s => jget s "connected") (getStatus fleet "braava_jet" "T")
     = Some (Some (JBool (connected mop))).
Proof. apply X19_robot_list_agrees_with_status; wit_tac. Defined.

Lemma X23_clean_room_map_id_witness :
  vendor_calls (snd (cleanRoom "roomba_j7" (JNum 1) None ctl0))
  = (vendor_calls ctl0
     ++ [("roomba_j7", "cleanRoom",
          JObj [("ordered", JNum 1); ("pmap_id", JStr "");
                ("regions", JArr [JObj [("region_id", JNum 1);
                                        ("type", JStr "rid")]])])])%list.
Proof. apply (X23_clean_room_without_map_id ctl0 "roomba_j7" vacuum); wit_tac. Defined.

Lemma X24_polling_witness :
  let xs := [StartPolling; Tick 0; StartPolling; StopPolling; StartPolling] in
  timers (ctl_run ctl0 xs)
  = match pollingInterval (ctl_run ctl0 xs) with Some i => [i] | None => [] end
  /\ robots (ctl_run ctl0 xs) = robots ctl0
  /\ vendor_calls (ctl_run ctl0 xs) = vendor_calls ctl0.
Proof. intro xs. apply X24_at_most_one_polling_interval; wit_tac. Defined.

Lemma X25_disconnect_witness :
  let c' := disconnect (fun id => String.eqb id "braava_jet") ctl0 in
  pollingInterval c' = None /\ timers c' = []
  /\ (forall id r, In (id, r) (robots c') -> String.eqb id "braava_jet" = false ->
                   connected r = false)
  /\ (forall id r, In (id, r) (robots ctl0) -> String.eqb id "braava_jet" = true ->
                   In (id, r) (robots c')).
Proof. apply X25_disconnect_stops_and_disconnects; wit_tac. Defined.

End ControllerWitnesses.

Section ServiceWitnesses.
Import DatabaseSvc.

Lemma X27_disabled_service_witness :
  let xs := [LogIrrigation (JStr "START") None None "T" true;
             LogRobotMission (JStr "roomba_j7") (JStr "start") (JStr "ok") None true] in
  db_run service0 xs = service0 /\ getHistory None (db_run service0 xs) = [].
Proof. intro xs. apply X27_disabled_service_writes_nothing; wit_tac. Defined.

End ServiceWitnesses.

End Extras.
